(** * Firebase Auth user events: the payload normalizer, the builder and the envelope

    A shallow embedding of [src/providers/auth.ts] and [src/event.ts].

    The TypeScript code works on untyped ([any]) JavaScript values and
    mutates the objects it is handed, so the embedding has
    - JavaScript values, with objects held by reference in a heap;
    - a small state-and-exception monad [M] over that heap;
    - the String methods the code calls ([lastIndexOf], [substring]);
    - [UserBuilder.dataConstructor], [user], [onCreate], [onDelete] and the
      [FirebaseEvent] constructor written in that monad, statement by
      statement.

    What the model takes for granted: objects are plain data (own data
    properties, no accessors, no proxies, not frozen), as a deserialized
    payload is; the prototypes define none of the property names the code
    reads or writes; the host's date parser is a function of the string,
    left open ([Date_parse]). *)

From Stdlib Require Import ZArith Ascii String Floats.SpecFloat.
From stdpp Require Import gmap strings list fin_maps.

Local Open Scope Z_scope.

(** ** JavaScript values and the heap *)

Module Js.

(** Heap locations: the identity of an object. *)
Abbreviation loc := positive.

(** A value is a primitive or a reference to an object. Numbers are IEEE 754
    binary floats. Strings are sequences of code units; ['/'] is one unit. *)
Inductive value : Type :=
| VUndefined
| VNull
| VBool (b : bool)
| VNum (x : spec_float)
| VStr (s : string)
| VRef (l : loc).

(** What kind of object a heap cell is: an ordinary object (plain object,
    array, function: the code does not tell them apart), or a [Date] with its
    time value in milliseconds, [None] for the invalid date (NaN). *)
Inductive okind : Type :=
| Ordinary
| DateObj (tv : option Z).

(** An object: its own data properties and its kind. *)
Record obj : Type := Obj { own : gmap string value; kind : okind }.

Abbreviation heap := (gmap positive obj).

(** The only exception the code can raise. *)
Inductive exn : Type := TypeError.

Inductive outcome (A : Type) : Type :=
| Ok (a : A)
| Throw (e : exn).
Arguments Ok {A} a.
Arguments Throw {A} e.

(** Computations: they read and write the heap and return or throw. A throw
    keeps the writes made before it. *)
Definition M (A : Type) : Type := heap → outcome A * heap.

Definition ret {A} (a : A) : M A := λ h, (Ok a, h).

Definition bind {A B} (c : M A) (f : A → M B) : M B := λ h,
  match c h with
  | (Ok a, h') => f a h'
  | (Throw e, h') => (Throw e, h')
  end.

Definition throw {A} (e : exn) : M A := λ h, (Throw e, h).

Notation "'let*' x ':=' c 'in' k" := (bind c (λ x, k))
  (at level 10, x name, c at level 100, k at level 200).
Notation "c ';;' k" := (bind c (λ _, k))
  (at level 100, k at level 200, right associativity).

(** [ToBoolean]: [undefined], [null], [false], [0], [-0], [NaN] and the empty
    string are falsy; everything else, every object included, is truthy. *)
Definition truthy (v : value) : bool :=
  match v with
  | VUndefined | VNull => false
  | VBool b => b
  | VNum (S754_zero _) | VNum S754_nan => false
  | VNum _ => true
  | VStr s => negb (String.eqb s "")
  | VRef _ => true
  end.

(** [undefined] and [null]: the values without properties. *)
Definition nullish (v : value) : bool :=
  match v with
  | VUndefined | VNull => true
  | _ => false
  end.

(** [typeof v === 'string'], with the narrowing TypeScript draws from it. *)
Definition typeof_string (v : value) : option string :=
  match v with
  | VStr s => Some s
  | _ => None
  end.

(** The value a property read [v.k] yields in heap [h], for a property name
    [k] that no prototype defines (the code reads [data], [metadata], [uid],
    [lastSignedInAt], [createdAt], [service], ...): an own property of the
    object, else [undefined]. *)
Definition rd (h : heap) (v : value) (k : string) : value :=
  match v with
  | VRef l => default VUndefined (h !! l ≫= λ o, own o !! k)
  | _ => VUndefined
  end.

(** [v.k]: reading a property of [undefined] or [null] throws. *)
Definition get (v : value) (k : string) : M value := λ h,
  match v with
  | VUndefined | VNull => (Throw TypeError, h)
  | _ => (Ok (rd h v k), h)
  end.

(** The object [o] with its property [k] set to [x]. *)
Definition set_own (k : string) (x : value) (o : obj) : obj :=
  Obj (<[k:=x]> (own o)) (kind o).

(** [v.k = x]: writes the property of the object itself, so every holder of
    the reference sees it. On a primitive the (strict mode) write throws. *)
Definition put (v : value) (k : string) (x : value) : M unit := λ h,
  match v with
  | VRef l => (Ok tt, alter (set_own k x) l h)
  | _ => (Throw TypeError, h)
  end.

(** Allocation of a new object at a location the heap does not use. *)
Definition alloc (o : obj) : M value := λ h,
  let l := fresh (dom h) in (Ok (VRef l), <[l:=o]> h).

(** *** String methods *)

(** [s.lastIndexOf(c)] for a one-character search string: the greatest index
    at which [c] occurs, [-1] when it does not occur. *)
Fixpoint lastIndexOf (s : string) (c : ascii) : Z :=
  match s with
  | EmptyString => -1
  | String a s' =>
      let r := lastIndexOf s' c in
      if 0 <=? r then r + 1 else if Ascii.eqb a c then 0 else -1
  end.

Fixpoint drop_units (n : nat) (s : string) : string :=
  match n, s with
  | O, _ => s
  | S _, EmptyString => EmptyString
  | S n', String _ s' => drop_units n' s'
  end.

(** [s.substring(start)]: the units from [start] to the end; [start] is
    clamped to [0 .. length s]. *)
Definition substring (s : string) (start : Z) : string :=
  drop_units (Z.to_nat start) s.

(** A method call on a value: only a string has both String methods; on
    anything else [substring] is [undefined], so line 63 throws whether or
    not the inner call returns (an array has a [lastIndexOf] of its own). *)
Definition call_lastIndexOf (v : value) (c : ascii) : M Z :=
  match v with
  | VStr s => ret (lastIndexOf s c)
  | _ => throw TypeError
  end.

Definition call_substring (v : value) (start : Z) : M value :=
  match v with
  | VStr s => ret (VStr (substring s start))
  | _ => throw TypeError
  end.

(** [new Date(s)] for a string [s]: a new Date object whose time value is
    what the host's date parser makes of [s]. *)
Definition new_Date (parse : string → option Z) (s : string) : M value :=
  alloc (Obj ∅ (DateObj (parse s))).

(** [s] contains the unit [c]. *)
Fixpoint contains (c : ascii) (s : string) : bool :=
  match s with
  | EmptyString => false
  | String a s' => Ascii.eqb a c || contains c s'
  end.

End Js.

Import Js.

(** ** [../cloud-functions] *)

Module CloudFunctions.

(** The object literal [onCreate] and [onDelete] hand to [makeCloudFunction].
    [H] is the type of the user's handlers. *)
Record Options (H : Type) : Type := MkOptions {
  opt_provider : string;
  opt_handler : H;
  opt_resource : string;
  opt_eventType : string;
  opt_dataConstructor : value → M value
}.
Arguments MkOptions {H}.
Arguments opt_provider {H}.
Arguments opt_handler {H}.
Arguments opt_resource {H}.
Arguments opt_eventType {H}.
Arguments opt_dataConstructor {H}.

(** The handler descriptor the runtime consumes. *)
Record CloudFunction (H : Type) : Type := MkCloudFunction {
  providerId : string;
  resource : string;
  eventType : string;
  normalize : value → M value;
  handler : H
}.
Arguments MkCloudFunction {H}.
Arguments providerId {H}.
Arguments resource {H}.
Arguments eventType {H}.
Arguments normalize {H}.
Arguments handler {H}.

(** Modelled from the spec: [makeCloudFunction] of [../cloud-functions], which
    is not among the sources. The spec gives its result as the descriptor
    binding the provider id, the resource, the event-type string, the
    normalizer and the user callback it is given. *)
Definition makeCloudFunction {H} (o : Options H) : CloudFunction H :=
  MkCloudFunction (opt_provider o) (opt_resource o) (opt_eventType o)
    (opt_dataConstructor o) (opt_handler o).

End CloudFunctions.

(** ** [src/providers/auth.ts] *)

(** [export const provider = 'firebase.auth'] *)
Definition provider : string := "firebase.auth".

(** [process.env]: the environment variables that are set. *)
Abbreviation env := (gmap string string).

(** ['projects/' + x] for [x = process.env.K]: a variable that is not set
    reads [undefined], which [+] turns into the text ["undefined"]. *)
Definition env_text (x : option string) : string :=
  match x with
  | Some s => s
  | None => "undefined"
  end.

Module UserBuilder.

(** [constructor(private resource: string)] *)
Record t : Type := new { resource : string }.

Section dataConstructor.

(** The host's [Date] parser: the time value [new Date(s)] holds, [None] when
    [s] does not parse (the invalid date). *)
Variable Date_parse : string → option Z.

(** Lines 46-48 and 49-51, for the field [k]:
    [if (metadata.k && typeof metadata.k === 'string')
       metadata.k = new Date(metadata.k);]
    Reading a data property has no effect, so the three reads of
    [metadata.k] are one read here. *)
Definition coerceTimestamp (metadata : value) (k : string) : M unit :=
  let* v := get metadata k in
  if truthy v then
    match typeof_string v with
    | Some s =>
        let* d := new_Date Date_parse s in
        put metadata k d
    | None => ret tt
    end
  else ret tt.

(** Lines 44-52. *)
Definition coerceMetadata (raw : value) : M unit :=
  let* data := get raw "data" in
  let* m := get data "metadata" in
  if truthy m then
    let* data := get raw "data" in
    let* metadata := get data "metadata" in
    coerceTimestamp metadata "lastSignedInAt";;
    coerceTimestamp metadata "createdAt"
  else ret tt.

(** Lines 62-64:
    [if (raw.data.uid)
       raw.data.uid = raw.data.uid.substring(raw.data.uid.lastIndexOf('/') + 1);]
    in evaluation order: the object assigned to, the receiver of
    [substring], its argument, the call, the write. *)
Definition canonicalizeUid (raw : value) : M unit :=
  let* data := get raw "data" in
  let* uid := get data "uid" in
  if truthy uid then
    let* target := get raw "data" in
    let* data1 := get raw "data" in
    let* receiver := get data1 "uid" in
    let* data2 := get raw "data" in
    let* uid2 := get data2 "uid" in
    let* i := call_lastIndexOf uid2 "/" in
    let* s := call_substring receiver (i + 1) in
    put target "uid" s
  else ret tt.

(** [private static dataConstructor(raw: any): firebase.auth.UserRecord] *)
Definition dataConstructor (raw : value) : M value :=
  coerceMetadata raw;;
  canonicalizeUid raw;;
  let* data := get raw "data" in
  ret data.

End dataConstructor.

(** [onCreate(handler)] *)
Definition onCreate (Date_parse : string → option Z) {H} (this : t)
    (handler : H) : CloudFunctions.CloudFunction H :=
  CloudFunctions.makeCloudFunction
    (CloudFunctions.MkOptions provider handler (resource this) "user.create"
       (dataConstructor Date_parse)).

(** [onDelete(handler)] *)
Definition onDelete (Date_parse : string → option Z) {H} (this : t)
    (handler : H) : CloudFunctions.CloudFunction H :=
  CloudFunctions.makeCloudFunction
    (CloudFunctions.MkOptions provider handler (resource this) "user.delete"
       (dataConstructor Date_parse)).

End UserBuilder.

(** [export function user()], in the environment [e]. *)
Definition user (e : env) : UserBuilder.t :=
  UserBuilder.new ("projects/" +:+ env_text (e !! "GCLOUD_PROJECT")).

(** ** [src/event.ts] *)

Module FirebaseEvent.

(** [new FirebaseEvent(options)]: a new object, then the constructor's
    destructuring assignment: the six reads of [options] first, then the six
    writes to [this]. No other property is written. *)
Definition new (options : value) : M value :=
  let* this := alloc (Obj ∅ Ordinary) in
  let* service := get options "service" in
  let* type := get options "type" in
  let* instance := get options "instance" in
  let* uid := get options "uid" in
  let* deviceId := get options "deviceId" in
  let* data := get options "data" in
  put this "service" service;;
  put this "type" type;;
  put this "instance" instance;;
  put this "uid" uid;;
  put this "deviceId" deviceId;;
  put this "data" data;;
  ret this.

End FirebaseEvent.

(** ** Sample data *)

(** A date parser for the examples: it knows the two instants the examples
    use, in milliseconds since the epoch, and rejects everything else. *)
Definition sample_parse (s : string) : option Z :=
  if String.eqb s "2024-01-01T00:00:00Z" then Some 1704067200000
  else if String.eqb s "2020-05-01T00:00:00Z" then Some 1588291200000
  else None.

(** The envelope of the end-to-end scenario:
    [{service: "auth", type: "user.create", resource: "projects/p1",
      data: {uid: "http://x/99", metadata: {createdAt: "2020-05-01T00:00:00Z"}}}]
    at location 1, its data at 2, the metadata at 3. *)
Definition sample_heap : heap :=
  {[ 1%positive := Obj {[ "service" := VStr "auth"; "type" := VStr "user.create";
                 "resource" := VStr "projects/p1"; "data" := VRef 2 ]} Ordinary;
     2%positive := Obj {[ "uid" := VStr "http://x/99"; "metadata" := VRef 3 ]} Ordinary;
     3%positive := Obj {[ "createdAt" := VStr "2020-05-01T00:00:00Z" ]} Ordinary ]}.

Definition sample_data : obj :=
  Obj {[ "uid" := VStr "http://x/99"; "metadata" := VRef 3 ]} Ordinary.

Definition sample_run : outcome value * heap :=
  UserBuilder.dataConstructor sample_parse (VRef 1) sample_heap.

(** A payload that is already normalized:
    [{data: {uid: "12345", metadata: {createdAt: <Date>}}}], the Date at 4. *)
Definition normalized_heap : heap :=
  {[ 1%positive := Obj {[ "data" := VRef 2 ]} Ordinary;
     2%positive := Obj {[ "uid" := VStr "12345"; "metadata" := VRef 3 ]} Ordinary;
     3%positive := Obj {[ "createdAt" := VRef 4 ]} Ordinary;
     4%positive := Obj ∅ (DateObj (Some 1704067200000)) ]}.

(** [{data: {uid: "", metadata: {createdAt: "", lastSignedInAt: ""}}}] *)
Definition empty_strings_heap : heap :=
  {[ 1%positive := Obj {[ "data" := VRef 2 ]} Ordinary;
     2%positive := Obj {[ "uid" := VStr ""; "metadata" := VRef 3 ]} Ordinary;
     3%positive := Obj {[ "createdAt" := VStr ""; "lastSignedInAt" := VStr "" ]}
                     Ordinary ]}.

(** [{data: {metadata: {createdAt: "yesterday"}}}]: no uid, and a timestamp
    the sample parser rejects. *)
Definition malformed_heap : heap :=
  {[ 1%positive := Obj {[ "data" := VRef 2 ]} Ordinary;
     2%positive := Obj {[ "metadata" := VRef 3 ]} Ordinary;
     3%positive := Obj {[ "createdAt" := VStr "yesterday" ]} Ordinary ]}.

Definition malformed_data : obj := Obj {[ "metadata" := VRef 3 ]} Ordinary.

(** [{data: {uid: 5, metadata: {createdAt: "2020-05-01T00:00:00Z"}}}] *)
Definition throwing_heap : heap :=
  {[ 1%positive := Obj {[ "data" := VRef 2 ]} Ordinary;
     2%positive := Obj {[ "uid" := VNum (S754_finite false 5 0);
                          "metadata" := VRef 3 ]} Ordinary;
     3%positive := Obj {[ "createdAt" := VStr "2020-05-01T00:00:00Z" ]} Ordinary ]}.

(** [{data: {uid: "u1", metadata: {createdAt: "2020-05-01T00:00:00Z",
                                    lastSignedInAt: "2020-05-01T00:00:00Z"}}}] *)
Definition both_timestamps_heap : heap :=
  {[ 1%positive := Obj {[ "data" := VRef 2 ]} Ordinary;
     2%positive := Obj {[ "uid" := VStr "u1"; "metadata" := VRef 3 ]} Ordinary;
     3%positive := Obj {[ "createdAt" := VStr "2020-05-01T00:00:00Z";
                          "lastSignedInAt" := VStr "2020-05-01T00:00:00Z" ]}
                     Ordinary ]}.

(** [{data: {uid: "a/b", metadata: "none"}}]: a [metadata] that is a string. *)
Definition primitive_metadata_heap : heap :=
  {[ 1%positive := Obj {[ "data" := VRef 2 ]} Ordinary;
     2%positive := Obj {[ "uid" := VStr "a/b"; "metadata" := VStr "none" ]}
                     Ordinary ]}.

(** Options whose own [uid] and whose payload's [uid] both hold a ['/']:
    [{service: "auth", type: "user.create", uid: "x/y", data: {uid: "a/b"}}] *)
Definition slashed_options_heap : heap :=
  {[ 1%positive := Obj {[ "service" := VStr "auth"; "type" := VStr "user.create";
                 "uid" := VStr "x/y"; "data" := VRef 2 ]} Ordinary;
     2%positive := Obj {[ "uid" := VStr "a/b" ]} Ordinary ]}.

Definition slashed_payload : obj := Obj {[ "uid" := VStr "a/b" ]} Ordinary.

(** Options for [new FirebaseEvent(options)], at location 1:
    [{service: "auth", type: "user.create", uid: "u1", data: {}}] *)
Definition options_heap : heap :=
  {[ 1%positive := Obj {[ "service" := VStr "auth"; "type" := VStr "user.create";
                 "uid" := VStr "u1"; "data" := VRef 2 ]} Ordinary;
     2%positive := Obj ∅ Ordinary ]}.

(** An environment with the project identifier set, among others. *)
Definition sample_env : env :=
  {[ "GCLOUD_PROJECT" := "p1"; "HOME" := "/root" ]}.

(** ** Vocabulary of the statements *)

(** [v] is a non-empty string: what the guards of [coerceTimestamp] let
    through. *)
Definition nonempty_string (v : value) : bool :=
  match v with
  | VStr s => negb (String.eqb s "")
  | _ => false
  end.

(** [v] is a string. *)
Definition is_string (v : value) : bool :=
  match v with
  | VStr _ => true
  | _ => false
  end.

(** [x] is an optional string property: absent, or a string. *)
Definition optional_string (x : option value) : bool :=
  match x with
  | None | Some (VStr _) => true
  | Some _ => false
  end.

(** A uid that needs no repair: absent, or a string without ['/']. *)
Definition canonical_uid (v : value) : bool :=
  match v with
  | VUndefined => true
  | VStr s => negb (contains "/" s)
  | _ => false
  end.

(** An already normalized payload: it has a [data], its two timestamps are
    not strings, and its uid needs no repair. *)
Definition normalized (h : heap) (raw : value) : bool :=
  let data := rd h raw "data" in
  let m := rd h data "metadata" in
  negb (nullish raw) && negb (nullish data)
  && negb (is_string (rd h m "lastSignedInAt"))
  && negb (is_string (rd h m "createdAt"))
  && canonical_uid (rd h data "uid").

(** The property names of a [FirebaseEvent]. *)
Definition envelope_fields : list string :=
  ["service"; "type"; "instance"; "uid"; "deviceId"; "data"].

(** [frame W h h']: from [h] to [h'] no object is lost or changes its kind,
    no object gains or loses a property, a property keeps its value unless
    [W] lists it (by object and name), and the only new objects are Dates
    without properties. *)
Definition frame (W : loc → string → Prop) (h h' : heap) : Prop :=
  (∀ l o, h !! l = Some o →
     ∃ o', h' !! l = Some o' ∧ kind o' = kind o ∧ dom (own o') = dom (own o)
           ∧ ∀ k, ¬ W l k → own o' !! k = own o !! k)
  ∧ (∀ l, h !! l = None →
       h' !! l = None ∨ ∃ tv, h' !! l = Some (Obj ∅ (DateObj tv))).

(** The property [k] of the object [v] refers to. *)
Definition field (v : value) (k : string) : loc → string → Prop :=
  λ l k', v = VRef l ∧ k' = k.

(** The same when [b] holds, and no property at all otherwise. *)
Definition field_if (b : bool) (v : value) (k : string) : loc → string → Prop :=
  λ l k', b = true ∧ field v k l k'.

(** The properties [dataConstructor] repairs, for the payload [raw] in the
    heap [h]: [raw.data.metadata.lastSignedInAt] and
    [raw.data.metadata.createdAt], each when it holds a non-empty string, and
    [raw.data.uid] when it holds one. *)
Definition repaired (h : heap) (raw : value) : loc → string → Prop :=
  let data := rd h raw "data" in
  let m := rd h data "metadata" in
  λ l k,
    field_if (nonempty_string (rd h m "lastSignedInAt")) m "lastSignedInAt" l k
    ∨ field_if (nonempty_string (rd h m "createdAt")) m "createdAt" l k
    ∨ field_if (nonempty_string (rd h data "uid")) data "uid" l k.

(** Two heaps that differ at most in the time values of Dates, where the
    one holds what [P] makes of some string and the other what [Q] makes of
    the same string: at every location the two heaps hold the same thing,
    or two objects with the same properties that are such a pair of Dates. *)
Definition same_but_dates (P Q : string → option Z) (h1 h2 : heap) : Prop :=
  ∀ l, h1 !! l = h2 !! l
       ∨ ∃ o1 o2 s, h1 !! l = Some o1 ∧ h2 !! l = Some o2
                    ∧ own o1 = own o2
                    ∧ kind o1 = DateObj (P s) ∧ kind o2 = DateObj (Q s).

(** Two computations that, from two such heaps, return or throw alike and
    leave two such heaps. *)
Definition alike {A} (P Q : string → option Z) (c1 c2 : M A) : Prop :=
  ∀ h1 h2, same_but_dates P Q h1 h2 →
    (c1 h1).1 = (c2 h2).1 ∧ same_but_dates P Q (c1 h1).2 (c2 h2).2.

(** ** The String methods *)

Example lastIndexOf_abc : lastIndexOf "a/b/c" "/" = 3.
Proof. reflexivity. Qed.

Example lastIndexOf_absent : lastIndexOf "12345" "/" = -1.
Proof. reflexivity. Qed.

Example substring_abc : substring "a/b/c" 4 = "c".
Proof. reflexivity. Qed.

Lemma lastIndexOf_lower s c : -1 ≤ lastIndexOf s c.
Proof.
  induction s as [|a s IH]; simpl; [lia|].
  destruct (Z.leb_spec 0 (lastIndexOf s c)); [lia|].
  destruct (Ascii.eqb a c); lia.
Qed.

(** [lastIndexOf] answers [-1] exactly on the strings without [c]. *)
Lemma lastIndexOf_contains s c :
  contains c s = false ↔ lastIndexOf s c = -1.
Proof.
  induction s as [|a s IH]; simpl; [done|].
  pose proof (lastIndexOf_lower s c).
  destruct (Z.leb_spec 0 (lastIndexOf s c)) as [Hr|Hr].
  - split; [|lia]. intros [_ Hc]%orb_false_iff. apply IH in Hc. lia.
  - assert (contains c s = false) as -> by (apply IH; lia).
    rewrite orb_false_r. destruct (Ascii.eqb a c); split; (done || lia).
Qed.

Lemma substring_cons a s i : 0 ≤ i → substring (String a s) (i + 1) = substring s i.
Proof.
  intros Hi. unfold substring.
  replace (Z.to_nat (i + 1)) with (S (Z.to_nat i)) by lia. done.
Qed.

(** Where [c] occurs, the units after [lastIndexOf] are the part of [s]
    behind its last [c]: [s] is some prefix, then [c], then that part, which
    holds no [c]. *)
Lemma substring_after_last s c :
  contains c s = true →
  ∃ pre, s = pre +:+ String c (substring s (lastIndexOf s c + 1))
         ∧ contains c (substring s (lastIndexOf s c + 1)) = false.
Proof.
  induction s as [|a s IH]; simpl; [done|].
  pose proof (lastIndexOf_lower s c).
  destruct (Z.leb_spec 0 (lastIndexOf s c)) as [Hr|Hr]; intros Hc.
  - rewrite substring_cons by lia.
    destruct IH as (pre & Hs & Hn).
    { destruct (contains c s) eqn:E; [done|]. apply lastIndexOf_contains in E. lia. }
    exists (String a pre). split; [|done]. exact (f_equal (String a) Hs).
  - assert (contains c s = false) as Hs by (apply lastIndexOf_contains; lia).
    rewrite Hs, orb_false_r in Hc.
    destruct (Ascii.eqb_spec a c) as [->|]; [|done].
    exists "". by unfold substring; simpl.
Qed.

(** Where [c] does not occur, the same expression is all of [s]. *)
Lemma substring_no_separator s c :
  contains c s = false → substring s (lastIndexOf s c + 1) = s.
Proof. intros ->%lastIndexOf_contains. done. Qed.

(** ** Reads, writes and allocation *)

Arguments rd : simpl never.

Implicit Types (h : heap) (l : loc) (o : obj) (v x raw : value) (k : string).

Lemma get_run v k h : nullish v = false → get v k h = (Ok (rd h v k), h).
Proof. by destruct v. Qed.

Lemma get_nullish {v} k h : nullish v = true → get v k h = (Throw TypeError, h).
Proof. by destruct v. Qed.

Lemma truthy_not_nullish v : truthy v = true → nullish v = false.
Proof. by destruct v. Qed.

Lemma nonempty_string_truthy v : nonempty_string v = true → truthy v = true.
Proof. by destruct v. Qed.

(** A read that finds something found an own property of an object. *)
Lemma rd_defined h v k :
  rd h v k ≠ VUndefined →
  ∃ l o, v = VRef l ∧ h !! l = Some o ∧ own o !! k = Some (rd h v k).
Proof.
  destruct v as [| | | | |l]; unfold rd; try done.
  destruct (h !! l) as [o|] eqn:Hl; simpl; [|done].
  destruct (own o !! k) as [x|] eqn:Hk; simpl; [|done].
  intros _. by exists l, o.
Qed.

Lemma rd_object h l o k : h !! l = Some o → rd h (VRef l) k = default VUndefined (own o !! k).
Proof. intros Hl. unfold rd. by rewrite Hl. Qed.

Lemma frame_refl W h : frame W h h.
Proof. split; [|by left]. intros l o Hl. by exists o. Qed.

Lemma frame_mono (W W' : loc → string → Prop) h h' :
  (∀ l k, W l k → W' l k) → frame W h h' → frame W' h h'.
Proof.
  intros HW [Hold Hnew]. split; [|done].
  intros l o Hl. destruct (Hold l o Hl) as (o' & ? & ? & ? & Hk).
  exists o'. repeat split; try done. intros k Hn. apply Hk. naive_solver.
Qed.

Lemma frame_trans W h1 h2 h3 : frame W h1 h2 → frame W h2 h3 → frame W h1 h3.
Proof.
  intros [Hold1 Hnew1] [Hold2 Hnew2]. split.
  - intros l o Hl.
    destruct (Hold1 l o Hl) as (o2 & Hl2 & Hk2 & Hd2 & Hf2).
    destruct (Hold2 l o2 Hl2) as (o3 & Hl3 & Hk3 & Hd3 & Hf3).
    exists o3. repeat split; [done|congruence|congruence|].
    intros k Hn. rewrite Hf3, Hf2; done.
  - intros l Hl. destruct (Hnew1 l Hl) as [Hl2|[tv Hl2]]; [by apply Hnew2|].
    destruct (Hold2 l _ Hl2) as ([p kd] & Hl3 & Hk3 & Hd3 & _). simpl in *.
    right. exists tv. apply dom_empty_inv_L in Hd3. by subst.
Qed.

(** What a frame leaves alone reads the same, through every reference, a
    dangling one included. *)
Lemma frame_rd W h h' v k :
  frame W h h' → (∀ l, v = VRef l → ¬ W l k) → rd h' v k = rd h v k.
Proof.
  intros [Hold Hnew] HW. destruct v as [| | | | |l]; try done. unfold rd.
  destruct (h !! l) as [o|] eqn:Hl.
  - destruct (Hold l o Hl) as (o' & -> & _ & _ & Hk). simpl.
    by rewrite Hk by by apply HW.
  - by destruct (Hnew l Hl) as [->|[tv ->]].
Qed.

Lemma frame_date_persists W h h' l tv :
  frame W h h' →
  h !! l = Some (Obj ∅ (DateObj tv)) → h' !! l = Some (Obj ∅ (DateObj tv)).
Proof.
  intros [Hold _] Hl. destruct (Hold l _ Hl) as ([p kd] & -> & Hk & Hd & _).
  simpl in *. apply dom_empty_inv_L in Hd. by subst.
Qed.

Lemma frame_none_back W h h' l : frame W h h' → h' !! l = None → h !! l = None.
Proof.
  intros [Hold _] Hl'. destruct (h !! l) as [o|] eqn:Hl; [|done].
  destruct (Hold l o Hl) as (o' & ? & _). congruence.
Qed.

Lemma frame_alloc_date h tv :
  frame (λ _ _, False) h (<[fresh (dom h) := Obj ∅ (DateObj tv)]> h).
Proof.
  pose proof (is_fresh (dom h)) as Hf. rewrite not_elem_of_dom in Hf.
  split.
  - intros l o Hl. exists o. rewrite lookup_insert_ne by congruence. done.
  - intros l Hl. destruct (decide (fresh (dom h) = l)) as [->|].
    + right. exists tv. by rewrite lookup_insert_eq.
    + left. by rewrite lookup_insert_ne.
Qed.

Lemma frame_put h l o k x :
  h !! l = Some o → is_Some (own o !! k) →
  frame (field (VRef l) k) h (alter (set_own k x) l h).
Proof.
  intros Hl Hk. split.
  - intros l' o' Hl'. destruct (decide (l = l')) as [<-|Hne].
    + assert (o' = o) as -> by congruence.
      exists (set_own k x o). rewrite lookup_alter_eq, Hl. simpl.
      split; [done|]. split; [done|]. split.
      * rewrite dom_insert_L. apply elem_of_dom in Hk.
        apply subseteq_union_1_L. by apply singleton_subseteq_l.
      * intros k' Hn. apply lookup_insert_ne. intros ->. by apply Hn.
    + exists o'. by rewrite lookup_alter_ne.
  - intros l' Hl'. left. rewrite lookup_alter_ne; [done|congruence].
Qed.

(** Writing the value a property already has changes nothing. *)
Lemma put_same h l o k x :
  h !! l = Some o → own o !! k = Some x → alter (set_own k x) l h = h.
Proof.
  intros Hl Hk. apply map_eq. intros l'.
  destruct (decide (l = l')) as [<-|Hne].
  - rewrite lookup_alter_eq, Hl. simpl. f_equal.
    destruct o as [p kd]. unfold set_own. simpl in *. by rewrite insert_id.
  - by rewrite lookup_alter_ne.
Qed.

Lemma rd_put h l o k x :
  h !! l = Some o → rd (alter (set_own k x) l h) (VRef l) k = x.
Proof.
  intros Hl. unfold rd. rewrite lookup_alter_eq, Hl. simpl.
  by rewrite lookup_insert_eq.
Qed.

(** ** The blocks of [dataConstructor] *)

Section normalizer.

Variable Date_parse : string → option Z.

#[local] Abbreviation coerceTimestamp := (UserBuilder.coerceTimestamp Date_parse).
#[local] Abbreviation coerceMetadata := (UserBuilder.coerceMetadata Date_parse).
#[local] Abbreviation dataConstructor := (UserBuilder.dataConstructor Date_parse).
#[local] Abbreviation canonicalizeUid := UserBuilder.canonicalizeUid.

(** One timestamp guard and its assignment: it never throws on an object; it
    writes at most the property [k] of [metadata]; afterwards that property
    is no non-empty string; it does nothing unless the property was one, and
    then the property refers to a new Date holding the parsed time value. *)
Lemma coerceTimestamp_spec metadata k h :
  nullish metadata = false →
  ∃ h', coerceTimestamp metadata k h = (Ok tt, h')
    ∧ frame (field_if (nonempty_string (rd h metadata k)) metadata k) h h'
    ∧ nonempty_string (rd h' metadata k) = false
    ∧ (nonempty_string (rd h metadata k) = false → h' = h)
    ∧ (∀ s, rd h metadata k = VStr s → s ≠ "" →
         ∃ l, h !! l = None ∧ rd h' metadata k = VRef l
              ∧ h' !! l = Some (Obj ∅ (DateObj (Date_parse s)))).
Proof.
  intros Hm. unfold UserBuilder.coerceTimestamp, bind. rewrite get_run by done.
  destruct (nonempty_string (rd h metadata k)) eqn:Hne.
  - destruct (rd h metadata k) as [| | | |s|] eqn:Hv; try done.
    rewrite (nonempty_string_truthy _ Hne). simpl.
    destruct (rd_defined h metadata k) as (m & o & -> & Hl & Hk); [by rewrite Hv|].
    simpl. set (l := fresh (dom h)).
    assert (h !! l = None) as Hfresh by (apply not_elem_of_dom, is_fresh).
    assert (<[l:=Obj ∅ (DateObj (Date_parse s))]> h !! m = Some o) as Hl'.
    { rewrite lookup_insert_ne; [done|congruence]. }
    eexists. split; [done|]. split; [|split; [|split]].
    + eapply frame_trans.
      * eapply frame_mono, frame_alloc_date. done.
      * eapply frame_mono; [|eapply frame_put; [done|by rewrite Hk]].
        by intros l' k' ?.
    + by rewrite (rd_put _ _ _ _ _ Hl').
    + done.
    + intros s' [= <-] _. exists l. split; [done|]. split.
      * by rewrite (rd_put _ _ _ _ _ Hl').
      * rewrite lookup_alter_ne by congruence. by rewrite lookup_insert_eq.
  - exists h.
    assert (coerceTimestamp metadata k h = (Ok tt, h)) as Hrun.
    { unfold UserBuilder.coerceTimestamp, bind. rewrite get_run by done.
      destruct (rd h metadata k) as [| |[]|[]|s|]; try done.
      simpl in *. by rewrite Hne. }
    unfold UserBuilder.coerceTimestamp, bind in Hrun. rewrite get_run in Hrun by done.
    split; [done|]. split; [apply frame_refl|]. split; [done|]. split; [done|].
    intros s Hs Hs'. rewrite Hs in Hne. simpl in Hne.
    apply negb_false_iff, String.eqb_eq in Hne. done.
Qed.

(** Both timestamp guards, under [if (raw.data.metadata)]. *)
Lemma coerceMetadata_spec raw h :
  nullish raw = false → nullish (rd h raw "data") = false →
  let m := rd h (rd h raw "data") "metadata" in
  ∃ h', coerceMetadata raw h = (Ok tt, h')
    ∧ frame (λ l k,
         field_if (nonempty_string (rd h m "lastSignedInAt")) m "lastSignedInAt" l k
         ∨ field_if (nonempty_string (rd h m "createdAt")) m "createdAt" l k) h h'
    ∧ (∀ k, k = "lastSignedInAt" ∨ k = "createdAt" →
         nonempty_string (rd h' m k) = false)
    ∧ ((∀ k, k = "lastSignedInAt" ∨ k = "createdAt" →
          nonempty_string (rd h m k) = false) → h' = h)
    ∧ (∀ k s, k = "lastSignedInAt" ∨ k = "createdAt" →
         rd h m k = VStr s → s ≠ "" →
         ∃ l, h !! l = None ∧ rd h' m k = VRef l
              ∧ h' !! l = Some (Obj ∅ (DateObj (Date_parse s)))).
Proof.
  intros Hraw Hdata m. unfold UserBuilder.coerceMetadata, bind.
  rewrite !get_run by done. fold m.
  destruct (truthy m) eqn:Hm.
  - rewrite !get_run by done. fold m.
    apply truthy_not_nullish in Hm.
    destruct (coerceTimestamp_spec m "lastSignedInAt" h Hm)
      as (h1 & -> & Hf1 & Hn1 & Hid1 & Hd1).
    destruct (coerceTimestamp_spec m "createdAt" h1 Hm)
      as (h2 & -> & Hf2 & Hn2 & Hid2 & Hd2).
    assert (rd h2 m "lastSignedInAt" = rd h1 m "lastSignedInAt") as Hsame2.
    { apply (frame_rd _ _ _ _ _ Hf2). by intros l _ (_ & _ & ?). }
    assert (rd h1 m "createdAt" = rd h m "createdAt") as Hsame1.
    { apply (frame_rd _ _ _ _ _ Hf1). by intros l _ (_ & _ & ?). }
    rewrite Hsame1 in Hf2.
    exists h2. split; [done|]. split; [|split; [|split]].
    + eapply frame_trans; (eapply frame_mono; [|done]); tauto.
    + intros k [->| ->]; [by rewrite Hsame2|done].
    + intros Hno. rewrite Hid2; [apply Hid1|rewrite Hsame1]; apply Hno; auto.
    + intros k s [->| ->] Hs Hne.
      * destruct (Hd1 s Hs Hne) as (l & Hl & Hr & Hl1).
        exists l. split; [done|]. split; [by rewrite Hsame2|].
        by apply (frame_date_persists _ _ _ _ _ Hf2).
      * rewrite <-Hsame1 in Hs.
        destruct (Hd2 s Hs Hne) as (l & Hl & Hr & Hl2).
        exists l. split; [|done]. by apply (frame_none_back _ _ _ _ Hf1).
  - assert (∀ k, rd h m k = VUndefined) as Hund by by destruct m.
    exists h. split; [done|]. split; [apply frame_refl|].
    split; [|split; [done|]].
    + intros k _. by rewrite Hund.
    + intros k s _ Hs. by rewrite Hund in Hs.
Qed.

(** The uid guard and its assignment. What it does depends on
    [raw.data.uid]: on a falsy value nothing; on a string the write of the
    part behind the last ['/'], which changes nothing when there is no
    ['/']; on any other truthy value the method call throws. *)
Lemma canonicalizeUid_spec raw h :
  nullish raw = false → nullish (rd h raw "data") = false →
  let data := rd h raw "data" in
  let uid := rd h data "uid" in
  ∃ out h', canonicalizeUid raw h = (out, h')
    ∧ frame (field_if (nonempty_string uid) data "uid") h h'
    ∧ (is_string uid = false → h' = h)
    ∧ (truthy uid = true → is_string uid = false → out = Throw TypeError)
    ∧ (truthy uid = false ∨ is_string uid = true → out = Ok tt)
    ∧ (∀ s, uid = VStr s →
         rd h' data "uid" = VStr (substring s (lastIndexOf s "/" + 1))
         ∧ (contains "/" s = false → h' = h)).
Proof.
  intros Hraw Hdata. cbv zeta. unfold UserBuilder.canonicalizeUid, bind.
  rewrite !get_run by done.
  destruct (rd h (rd h raw "data") "uid") as [| |b|x|s|l] eqn:Huid;
    try (exists (Ok tt), h; split; [done|]; split; [apply frame_refl|];
         by repeat split).
  - destruct b.
    + exists (Throw TypeError), h. simpl. rewrite !get_run, Huid by done.
      split; [done|]. split; [apply frame_refl|]. repeat split; try done.
      by intros [|].
    + exists (Ok tt), h. split; [done|]. split; [apply frame_refl|].
      by repeat split.
  - destruct (truthy (VNum x)) eqn:Hx.
    + exists (Throw TypeError), h. rewrite !get_run, Huid by done.
      split; [done|]. split; [apply frame_refl|]. repeat split; try done.
      by intros [|].
    + exists (Ok tt), h. split; [done|]. split; [apply frame_refl|].
      by repeat split.
  - destruct (rd_defined h (rd h raw "data") "uid") as (d & o & Hd & Hl & Hk).
    { by rewrite Huid. }
    rewrite Huid in Hk. destruct (truthy (VStr s)) eqn:Hs.
    + rewrite !get_run, Huid by done. rewrite Hd. simpl.
      eexists _, _. split; [done|]. split; [|split; [done|]].
      { eapply frame_mono; [|eapply frame_put; [done|by rewrite Hk]].
        by intros l' k' ?. }
      split; [done|]. split; [done|]. intros s' [= <-]. split.
      * by rewrite (rd_put _ _ _ _ _ Hl).
      * intros Hc. rewrite substring_no_separator by done.
        by apply (put_same _ _ _ _ _ Hl).
    + exists (Ok tt), h. split; [done|]. split; [apply frame_refl|].
      split; [done|]. split; [done|]. split; [done|].
      intros s' [= <-]. split; [|done]. simpl in Hs.
      apply negb_false_iff, String.eqb_eq in Hs. subst s. by rewrite Huid.
  - exists (Throw TypeError), h. simpl. rewrite !get_run, Huid by done.
    split; [done|]. split; [apply frame_refl|]. repeat split; try done.
    by intros [|].
Qed.

(** ** [dataConstructor] as a whole *)

(** On a payload that has a [data] object, in terms of what [raw.data],
    [raw.data.metadata] and [raw.data.uid] read before the call. *)
Lemma dataConstructor_spec raw h :
  nullish raw = false → nullish (rd h raw "data") = false →
  let data := rd h raw "data" in
  let m := rd h data "metadata" in
  let uid := rd h data "uid" in
  ∃ out h', dataConstructor raw h = (out, h')
    ∧ frame (repaired h raw) h h'
    ∧ (truthy uid = true → is_string uid = false → out = Throw TypeError)
    ∧ (truthy uid = false ∨ is_string uid = true → out = Ok data)
    ∧ (is_string uid = false → rd h' data "uid" = uid)
    ∧ (∀ s, uid = VStr s →
         rd h' data "uid" = VStr (substring s (lastIndexOf s "/" + 1)))
    ∧ (∀ k, k = "lastSignedInAt" ∨ k = "createdAt" →
         nonempty_string (rd h' m k) = false)
    ∧ (∀ k s, k = "lastSignedInAt" ∨ k = "createdAt" →
         rd h m k = VStr s → s ≠ "" →
         ∃ l, h !! l = None ∧ rd h' m k = VRef l
              ∧ h' !! l = Some (Obj ∅ (DateObj (Date_parse s))))
    ∧ ((∀ k, k = "lastSignedInAt" ∨ k = "createdAt" →
          nonempty_string (rd h m k) = false) →
       (∀ s, uid = VStr s → contains "/" s = false) → h' = h).
Proof.
  intros Hraw Hdata. cbv zeta.
  destruct (coerceMetadata_spec raw h Hraw Hdata) as (h1 & Hrun1 & Hf1 & Hn1 & Hid1 & Hd1).
  assert (∀ v k, k ≠ "lastSignedInAt" → k ≠ "createdAt" → rd h1 v k = rd h v k) as Hrd1.
  { intros v k ??. apply (frame_rd _ _ _ _ _ Hf1).
    intros l _ [(_ & _ & ?)|(_ & _ & ?)]; done. }
  assert (rd h1 raw "data" = rd h raw "data") as Hdata1 by by apply Hrd1.
  assert (nullish (rd h1 raw "data") = false) as Hnull1 by by rewrite Hdata1.
  destruct (canonicalizeUid_spec raw h1 Hraw Hnull1)
    as (out2 & h2 & Hrun2 & Hf2 & Hid2 & Hthrow2 & Hok2 & Hs2).
  rewrite Hdata1 in Hf2, Hid2, Hthrow2, Hok2, Hs2.
  rewrite (Hrd1 _ "uid") in Hf2, Hid2, Hthrow2, Hok2, Hs2 by done.
  assert (∀ v k, k ≠ "uid" → rd h2 v k = rd h1 v k) as Hrd2.
  { intros v k ?. apply (frame_rd _ _ _ _ _ Hf2). intros l _ (_ & _ & ?); done. }
  assert (rd h2 raw "data" = rd h raw "data") as Hdata2.
  { rewrite Hrd2 by done. done. }
  assert (∃ out, dataConstructor raw h = (out, h2)
           ∧ (out2 = Throw TypeError → out = Throw TypeError)
           ∧ (out2 = Ok tt → out = Ok (rd h raw "data"))) as (out & Hrun & Ht & Ho).
  { unfold UserBuilder.dataConstructor, bind. rewrite Hrun1, Hrun2.
    destruct out2 as [[]|[]].
    - rewrite get_run, Hdata2 by done. by eexists.
    - by eexists. }
  exists out, h2. split; [done|]. split; [|split; [|split; [|split; [|split; [|split; [|split]]]]]].
  - eapply frame_trans; (eapply frame_mono; [|done]); unfold repaired; cbv zeta beta; tauto.
  - auto.
  - auto.
  - intros Hns. rewrite (Hid2 Hns). by apply Hrd1.
  - intros s Hs. by apply Hs2.
  - intros k Hk. rewrite Hrd2 by (by destruct Hk as [->| ->]). by apply Hn1.
  - intros k s Hk Hs Hne. destruct (Hd1 k s Hk Hs Hne) as (l & Hl & Hr & Hl1).
    exists l. split; [done|]. split.
    + rewrite Hrd2 by (by destruct Hk as [->| ->]). done.
    + by apply (frame_date_persists _ _ _ _ _ Hf2).
  - intros Hno Hsep. rewrite <-(Hid1 Hno).
    destruct (rd h (rd h raw "data") "uid") as [| | | |s|] eqn:Huid;
      try (by apply Hid2).
    by apply (Hs2 s), Hsep.
Qed.

(** On a payload without one the first read throws and nothing is written. *)
Lemma dataConstructor_no_data raw h :
  nullish raw = true ∨ nullish (rd h raw "data") = true →
  dataConstructor raw h = (Throw TypeError, h).
Proof.
  unfold UserBuilder.dataConstructor, UserBuilder.coerceMetadata, bind.
  destruct (nullish raw) eqn:Hraw.
  - intros _. by rewrite (get_nullish _ _ Hraw).
  - intros [|Hdata]; [done|]. rewrite get_run by done.
    by rewrite (get_nullish _ _ Hdata).
Qed.

Lemma rd_ref_not_nullish h v k l : rd h v k = VRef l → nullish v = false.
Proof. by destruct v. Qed.

(** The uid block on a falsy uid: no write, no throw. *)
Lemma canonicalizeUid_falsy raw h :
  nullish raw = false → nullish (rd h raw "data") = false →
  truthy (rd h (rd h raw "data") "uid") = false →
  canonicalizeUid raw h = (Ok tt, h).
Proof.
  intros Hraw Hdata Hfalsy.
  destruct (canonicalizeUid_spec raw h Hraw Hdata)
    as (out & h' & -> & _ & Hid & _ & Hok & Hs).
  rewrite Hok by by left. f_equal.
  destruct (rd h (rd h raw "data") "uid") as [| | | |s|] eqn:Huid;
    try (by apply Hid).
  apply (Hs s); [done|]. simpl in Hfalsy.
  apply negb_false_iff, String.eqb_eq in Hfalsy. by subst.
Qed.

(** With a falsy uid the whole call is the timestamp block and the return
    of [raw.data]. *)
Lemma dataConstructor_uid_falsy raw h :
  nullish raw = false → nullish (rd h raw "data") = false →
  truthy (rd h (rd h raw "data") "uid") = false →
  dataConstructor raw h = (Ok (rd h raw "data"), (coerceMetadata raw h).2).
Proof.
  intros Hraw Hdata Hfalsy.
  destruct (coerceMetadata_spec raw h Hraw Hdata) as (h1 & Hrun1 & Hf1 & _).
  assert (∀ v k, k ≠ "lastSignedInAt" → k ≠ "createdAt" → rd h1 v k = rd h v k) as Hrd1.
  { intros v k ??. apply (frame_rd _ _ _ _ _ Hf1).
    intros l _ [(_ & _ & ?)|(_ & _ & ?)]; done. }
  assert (rd h1 raw "data" = rd h raw "data") as Hdata1 by by apply Hrd1.
  unfold UserBuilder.dataConstructor, bind. rewrite Hrun1.
  rewrite canonicalizeUid_falsy; [|done|by rewrite Hdata1|].
  - rewrite get_run by done. by rewrite Hdata1.
  - rewrite Hdata1, Hrd1 by done. done.
Qed.

(** ** The claims about [dataConstructor] *)

Example canonical_suffix_url :
  substring "http://provider.example/12345"
    (lastIndexOf "http://provider.example/12345" "/" + 1) = "12345".
Proof. reflexivity. Qed.

Example canonical_suffix_path :
  substring "a/b/c" (lastIndexOf "a/b/c" "/" + 1) = "c".
Proof. reflexivity. Qed.

Example canonical_suffix_bare :
  substring "12345" (lastIndexOf "12345" "/" + 1) = "12345".
Proof. reflexivity. Qed.

(** C1. For a payload whose [data] is the object [o] at [d]: when [uid] is
    a string [s], the call returns [data] and [uid] then holds a string [r]
    such that, if [s] contains ['/'], [s] is some prefix, a ['/'] and [r],
    with no ['/'] in [r] (so [r] is exactly what follows the last ['/']),
    and if [s] contains no ['/'], [r] is [s]; when [uid] is absent, the call
    returns [data] without an error, the heap it leaves is the one the
    timestamp block left (the uid block wrote nothing), and [uid] is still
    absent. *)
Theorem uid_canonicalization raw h d o :
  rd h raw "data" = VRef d → h !! d = Some o →
  ∃ out h', dataConstructor raw h = (out, h')
    ∧ (∀ s, own o !! "uid" = Some (VStr s) →
         out = Ok (VRef d)
         ∧ ∃ r, rd h' (VRef d) "uid" = VStr r
             ∧ (contains "/" s = true →
                  ∃ pre, s = pre +:+ String "/" r ∧ contains "/" r = false)
             ∧ (contains "/" s = false → r = s))
    ∧ (own o !! "uid" = None →
         out = Ok (VRef d)
         ∧ h' = (coerceMetadata raw h).2
         ∧ ∃ o', h' !! d = Some o' ∧ own o' !! "uid" = None).
Proof.
  intros Hd Hl.
  assert (nullish raw = false) as Hraw by by eapply rd_ref_not_nullish.
  assert (nullish (rd h raw "data") = false) as Hdata by by rewrite Hd.
  destruct (dataConstructor_spec raw h Hraw Hdata)
    as (out & h' & Hrun & Hf & _ & Hok & _ & Hstr & _).
  rewrite Hd in Hok, Hstr. rewrite (rd_object _ _ _ _ Hl) in Hok, Hstr.
  exists out, h'. split; [done|]. split.
  - intros s Hs. rewrite Hs in Hok, Hstr. simpl in Hok, Hstr.
    split; [by apply Hok; right|].
    exists (substring s (lastIndexOf s "/" + 1)). split; [by apply Hstr|].
    split; [apply substring_after_last|apply substring_no_separator].
  - intros Hnone. rewrite Hnone in Hok. split; [by apply Hok; left|]. split.
    + rewrite dataConstructor_uid_falsy in Hrun; [congruence|done|done|].
      by rewrite Hd, (rd_object _ _ _ _ Hl), Hnone.
    + destruct Hf as [Hold _].
      destruct (Hold d o Hl) as (o' & Hl' & _ & Hdom & _).
      exists o'. split; [done|]. apply not_elem_of_dom. rewrite Hdom.
      by apply not_elem_of_dom.
Qed.

Lemma dataConstructor_changes raw h :
  frame (repaired h raw) h (dataConstructor raw h).2.
Proof.
  destruct (nullish raw || nullish (rd h raw "data")) eqn:Hnull.
  - apply orb_true_iff in Hnull. rewrite dataConstructor_no_data by done.
    apply frame_refl.
  - apply orb_false_iff in Hnull as [Hraw Hdata].
    by destruct (dataConstructor_spec raw h Hraw Hdata) as (out & h' & -> & Hf & _).
Qed.

Lemma dataConstructor_returns_data raw h v :
  (dataConstructor raw h).1 = Ok v → v = rd h raw "data".
Proof.
  destruct (nullish raw || nullish (rd h raw "data")) eqn:Hnull.
  - apply orb_true_iff in Hnull. by rewrite dataConstructor_no_data by done.
  - apply orb_false_iff in Hnull as [Hraw Hdata].
    destruct (dataConstructor_spec raw h Hraw Hdata)
      as (out & h' & -> & _ & Hthrow & Hok & _).
    simpl. intros ->.
    destruct (truthy (rd h (rd h raw "data") "uid")) eqn:Htruthy;
      destruct (is_string (rd h (rd h raw "data") "uid")) eqn:Hstr;
      try (by specialize (Hthrow eq_refl eq_refl)).
    all: assert (Ok v = Ok (rd h raw "data")) as [= ->] by (apply Hok; auto).
    all: done.
Qed.

(** The three property names the repairs write. *)
Lemma repaired_names h raw l k :
  repaired h raw l k → k = "lastSignedInAt" ∨ k = "createdAt" ∨ k = "uid".
Proof. unfold repaired, field_if, field. cbv zeta. tauto. Qed.

(** C10. Whatever the payload and whether or not the call throws: from the
    heap before to the heap after, every object is still there with its kind
    and exactly the property names it had, and every property has the value
    it had, except [raw.data.uid], [raw.data.metadata.lastSignedInAt] and
    [raw.data.metadata.createdAt] where they held a non-empty string; the
    only new objects are the Dates. In particular no object, [data] and
    [metadata] included, changes under any other property name. A record
    that is returned is [raw.data] itself. *)
Theorem dataConstructor_frame raw h :
  let h' := (dataConstructor raw h).2 in
  frame (repaired h raw) h h'
  ∧ (∀ l o k, h !! l = Some o →
       k ≠ "uid" → k ≠ "lastSignedInAt" → k ≠ "createdAt" →
       ∃ o', h' !! l = Some o' ∧ dom (own o') = dom (own o)
             ∧ own o' !! k = own o !! k)
  ∧ (∀ v, (dataConstructor raw h).1 = Ok v → v = rd h raw "data").
Proof.
  pose proof (dataConstructor_changes raw h) as Hf.
  split; [done|]. split; [|apply dataConstructor_returns_data].
  intros l o k Hl Huid Hlsi Hca. destruct Hf as [Hold _].
  destruct (Hold l o Hl) as (o' & Hl' & _ & Hdom & Hk).
  exists o'. split; [done|]. split; [done|]. apply Hk.
  intros Hr. apply repaired_names in Hr. tauto.
Qed.

Lemma is_string_nonempty v : is_string v = false → nonempty_string v = false.
Proof. by destruct v. Qed.

(** What [dataConstructor] leaves in [uid] needs no second repair. *)
Lemma suffix_has_no_separator s :
  contains "/" (substring s (lastIndexOf s "/" + 1)) = false.
Proof.
  destruct (contains "/" s) eqn:Hc.
  - by destruct (substring_after_last s "/" Hc) as (pre & _ & ?).
  - by rewrite substring_no_separator.
Qed.

(** A second call finds nothing to repair: it returns or throws as the
    first did and leaves the heap of the first. *)
Lemma dataConstructor_twice raw h :
  dataConstructor raw (dataConstructor raw h).2 = dataConstructor raw h.
Proof.
  destruct (nullish raw || nullish (rd h raw "data")) eqn:Hnull.
  { apply orb_true_iff in Hnull.
    rewrite (dataConstructor_no_data raw h Hnull). simpl.
    by apply dataConstructor_no_data. }
  apply orb_false_iff in Hnull as [Hraw Hdata].
  destruct (dataConstructor_spec raw h Hraw Hdata)
    as (out & h' & Hrun & Hf & Hthrow & Hok & Hns & Hstr & Hne & _).
  rewrite Hrun. simpl.
  assert (∀ v k, k ≠ "lastSignedInAt" → k ≠ "createdAt" → k ≠ "uid" →
            rd h' v k = rd h v k) as Hrd.
  { intros v k ???. apply (frame_rd _ _ _ _ _ Hf).
    intros l _ Hr. apply repaired_names in Hr. tauto. }
  assert (rd h' raw "data" = rd h raw "data") as Hdata' by by apply Hrd.
  assert (nullish (rd h' raw "data") = false) as Hnull' by by rewrite Hdata'.
  destruct (dataConstructor_spec raw h' Hraw Hnull')
    as (out2 & h2 & -> & _ & Hthrow2 & Hok2 & _ & _ & _ & _ & Hnoop2).
  rewrite Hdata' in Hthrow2, Hok2, Hnoop2.
  rewrite (Hrd _ "metadata") in Hnoop2 by done.
  f_equal.
  - destruct (is_string (rd h (rd h raw "data") "uid")) eqn:Hs.
    + destruct (rd h (rd h raw "data") "uid") as [| | | |s|]; try done.
      rewrite (Hstr s eq_refl) in Hok2.
      rewrite Hok, Hok2 by by right. done.
    + rewrite (Hns eq_refl) in Hthrow2, Hok2.
      destruct (truthy (rd h (rd h raw "data") "uid")) eqn:Ht.
      * rewrite Hthrow, Hthrow2 by done. done.
      * rewrite Hok, Hok2 by by left. done.
  - apply Hnoop2; [done|]. intros s Hs.
    destruct (is_string (rd h (rd h raw "data") "uid")) eqn:Hs0.
    + destruct (rd h (rd h raw "data") "uid") as [| | | |s0|]; try done.
      rewrite (Hstr s0 eq_refl) in Hs. injection Hs as <-.
      apply suffix_has_no_separator.
    + rewrite (Hns eq_refl) in Hs. by rewrite Hs in Hs0.
Qed.

(** C3. Applying [dataConstructor] twice is applying it once, on every
    payload: same outcome, same heap; and on an already normalized payload
    ([normalized]: timestamps that are not strings, a uid without ['/']) one
    application returns [raw.data] and leaves the heap as it was. *)
Theorem normalization_idempotent raw h :
  dataConstructor raw (dataConstructor raw h).2 = dataConstructor raw h
  ∧ (normalized h raw = true →
       dataConstructor raw h = (Ok (rd h raw "data"), h)).
Proof.
  split; [apply dataConstructor_twice|].
  unfold normalized. cbv zeta.
  intros Hn.
  repeat match goal with
    | H : _ && _ = true |- _ => apply andb_true_iff in H as [? ?]
    end.
  repeat match goal with
    | H : negb _ = true |- _ => apply negb_true_iff in H
    end.
  destruct (dataConstructor_spec raw h)
    as (out & h' & -> & _ & _ & Hok & _ & _ & _ & _ & Hnoop); [done|done|].
  match goal with H : canonical_uid _ = true |- _ => rename H into Huid end.
  f_equal.
  - apply Hok. destruct (rd h (rd h raw "data") "uid"); try done; auto.
  - apply Hnoop.
    + intros k [->| ->]; by apply is_string_nonempty.
    + intros s Hs. rewrite Hs in Huid. by apply negb_true_iff.
Qed.

(** C4, as the code has it. [dataConstructor] works in place: what it
    returns is [raw.data] itself, and the heap after the call is the heap
    before it exactly when there is nothing to repair, that is when neither
    timestamp is a non-empty string and a string uid holds no ['/'];
    otherwise the caller's objects have been written to, and then only in
    the repaired properties. *)
Theorem dataConstructor_in_place raw h :
  nullish raw = false → nullish (rd h raw "data") = false →
  let data := rd h raw "data" in
  let m := rd h data "metadata" in
  ∃ out h', dataConstructor raw h = (out, h')
    ∧ (∀ v, out = Ok v → v = data)
    ∧ frame (repaired h raw) h h'
    ∧ (h' = h ↔
         nonempty_string (rd h m "lastSignedInAt") = false
         ∧ nonempty_string (rd h m "createdAt") = false
         ∧ ∀ s, rd h data "uid" = VStr s → contains "/" s = false).
Proof.
  intros Hraw Hdata. cbv zeta.
  pose proof (dataConstructor_returns_data raw h) as Hret.
  destruct (dataConstructor_spec raw h Hraw Hdata)
    as (out & h' & Hrun & Hf & _ & _ & _ & Hstr & _ & Hdates & Hnoop).
  rewrite Hrun in Hret. exists out, h'. split; [done|]. split; [done|].
  split; [done|]. split.
  - intros ->.
    assert (∀ k, k = "lastSignedInAt" ∨ k = "createdAt" →
              nonempty_string (rd h (rd h (rd h raw "data") "metadata") k) = false)
      as Hts.
    { intros k Hk.
      destruct (rd h (rd h (rd h raw "data") "metadata") k) as [| | | |s|] eqn:Hv;
        try done.
      destruct (String.eqb_spec s "") as [->|Hne]; [done|].
      destruct (Hdates k s Hk Hv Hne) as (l & Hnone & _ & Hsome). congruence. }
    split; [apply Hts; auto|]. split; [apply Hts; auto|].
    intros s Hs. specialize (Hstr s Hs). rewrite Hs in Hstr.
    injection Hstr as Hstr. rewrite Hstr. apply suffix_has_no_separator.
  - intros (Hlsi & Hca & Huid). apply Hnoop; [|done]. by intros k [->| ->].
Qed.

Lemma rd_path_not_nullish h v k1 k2 :
  rd h (rd h v k1) k2 ≠ VUndefined →
  nullish v = false ∧ nullish (rd h v k1) = false.
Proof.
  intros (l & o & Hv & _)%rd_defined. rewrite Hv.
  split; [by eapply rd_ref_not_nullish|done].
Qed.

(** Without a [metadata] the timestamp block does nothing. *)
Lemma coerceMetadata_absent raw h :
  nullish raw = false → nullish (rd h raw "data") = false →
  truthy (rd h (rd h raw "data") "metadata") = false →
  coerceMetadata raw h = (Ok tt, h).
Proof.
  intros Hraw Hdata Hm. unfold UserBuilder.coerceMetadata, bind.
  rewrite !get_run by done. by rewrite Hm.
Qed.

(** C2, as the code has it. For [k] one of the two timestamp names and
    [m] the payload's [metadata]: a non-empty string [s] in [m.k] is replaced
    by a new Date whose time value is the parse of [s]; anything else in
    [m.k] (a Date, nothing, the empty string) is left as it is, absent
    staying absent; and when [data] has no [metadata] the timestamp block
    returns without an error and without a write, and [data] still has no
    [metadata] after the call. *)
Theorem timestamp_coercion raw h k :
  k = "lastSignedInAt" ∨ k = "createdAt" →
  let data := rd h raw "data" in
  let m := rd h data "metadata" in
  let h' := (dataConstructor raw h).2 in
  (∀ s, rd h m k = VStr s → s ≠ "" →
     ∃ l, h !! l = None ∧ rd h' m k = VRef l
          ∧ h' !! l = Some (Obj ∅ (DateObj (Date_parse s))))
  ∧ (nonempty_string (rd h m k) = false →
     ∀ ml mo, m = VRef ml → h !! ml = Some mo →
       ∃ mo', h' !! ml = Some mo' ∧ own mo' !! k = own mo !! k)
  ∧ (∀ d o, data = VRef d → h !! d = Some o → own o !! "metadata" = None →
       coerceMetadata raw h = (Ok tt, h)
       ∧ ∃ o', h' !! d = Some o' ∧ own o' !! "metadata" = None).
Proof.
  intros Hk. cbv zeta.
  pose proof (dataConstructor_changes raw h) as [Hold _].
  split; [|split].
  - intros s Hs Hne.
    destruct (rd_path_not_nullish h raw "data" "metadata") as [Hraw Hdata].
    { destruct (rd_defined h (rd h (rd h raw "data") "metadata") k)
        as (l & o & Hm & _); [by rewrite Hs|]. by rewrite Hm. }
    destruct (dataConstructor_spec raw h Hraw Hdata)
      as (out & h' & -> & _ & _ & _ & _ & _ & _ & Hdates & _).
    by apply Hdates.
  - intros Hne ml mo Hm Hml.
    destruct (Hold ml mo Hml) as (mo' & Hml' & _ & _ & Hsame).
    exists mo'. split; [done|]. apply Hsame.
    unfold repaired, field_if, field. cbv zeta.
    destruct Hk as [->| ->]; intros [(Hb & _ & ?)|[(Hb & _ & ?)|(_ & _ & ?)]];
      congruence.
  - intros d o Hd Hl Hnone.
    assert (nullish raw = false) as Hraw by by eapply rd_ref_not_nullish.
    split.
    + apply coerceMetadata_absent; [done|by rewrite Hd|].
      by rewrite Hd, (rd_object _ _ _ _ Hl), Hnone.
    + destruct (Hold d o Hl) as (o' & Hl' & _ & Hdom & _).
      exists o'. split; [done|]. apply not_elem_of_dom. rewrite Hdom.
      by apply not_elem_of_dom.
Qed.

(** C5, as the code has it. On a payload of the wire shape (a [data]
    object whose [uid] is absent or a string; [metadata] and its fields may
    be anything) the call returns [data] and does not throw. A non-empty
    timestamp string the parser rejects is no error: the field then refers
    to a Date with no time value, the invalid date. The empty string never
    reaches the parser: the field is still the empty string, not a Date. *)
Theorem dataConstructor_total raw h d o :
  rd h raw "data" = VRef d → h !! d = Some o →
  optional_string (own o !! "uid") = true →
  let m := rd h (VRef d) "metadata" in
  ∃ h', dataConstructor raw h = (Ok (VRef d), h')
    ∧ (∀ k s, k = "lastSignedInAt" ∨ k = "createdAt" →
         rd h m k = VStr s → s ≠ "" → Date_parse s = None →
         ∃ l, rd h' m k = VRef l ∧ h' !! l = Some (Obj ∅ (DateObj None)))
    ∧ (∀ k, k = "lastSignedInAt" ∨ k = "createdAt" →
         rd h m k = VStr "" → rd h' m k = VStr "").
Proof.
  intros Hd Hl Huid. cbv zeta.
  assert (nullish raw = false) as Hraw by by eapply rd_ref_not_nullish.
  assert (nullish (rd h raw "data") = false) as Hdata by by rewrite Hd.
  destruct (dataConstructor_spec raw h Hraw Hdata)
    as (out & h' & -> & Hf & _ & Hok & _ & _ & _ & Hdates & _).
  rewrite Hd in Hok, Hdates. rewrite (rd_object _ _ _ _ Hl) in Hok.
  exists h'. split; [|split].
  - f_equal. apply Hok.
    destruct (own o !! "uid") as [[]|]; try done; auto.
  - intros k s Hk Hs Hne Hbad.
    destruct (Hdates k s Hk Hs Hne) as (l & _ & Hr & Hl').
    exists l. by rewrite <-Hbad.
  - intros k Hk Hs. rewrite <-Hs. apply (frame_rd _ _ _ _ _ Hf).
    intros l Hm. unfold repaired, field_if, field. cbv zeta. rewrite Hd.
    destruct Hk as [->| ->]; rewrite Hs; simpl;
      intros [(Hb & _ & ?)|[(Hb & _ & ?)|(_ & _ & ?)]]; congruence.
Qed.

(** C9. The guards test truthiness: the empty string is treated as a
    missing field is. On an empty string, as on [undefined], a timestamp
    guard and the uid guard do nothing at all; and after the whole call a
    timestamp or a uid that was the empty string still is (the call having
    returned [data] in the case of the uid). *)
Theorem empty_strings_untouched raw h :
  let data := rd h raw "data" in
  let m := rd h data "metadata" in
  let h' := (dataConstructor raw h).2 in
  (∀ k, k = "lastSignedInAt" ∨ k = "createdAt" →
     rd h m k = VStr "" → rd h' m k = VStr "")
  ∧ (rd h data "uid" = VStr "" →
     rd h' data "uid" = VStr "" ∧ (dataConstructor raw h).1 = Ok data)
  ∧ (∀ metadata k h0, nullish metadata = false →
       rd h0 metadata k = VStr "" ∨ rd h0 metadata k = VUndefined →
       coerceTimestamp metadata k h0 = (Ok tt, h0))
  ∧ (∀ h0, nullish raw = false → nullish (rd h0 raw "data") = false →
       rd h0 (rd h0 raw "data") "uid" = VStr ""
       ∨ rd h0 (rd h0 raw "data") "uid" = VUndefined →
       canonicalizeUid raw h0 = (Ok tt, h0)).
Proof.
  cbv zeta. pose proof (dataConstructor_changes raw h) as Hf.
  split; [|split; [|split]].
  - intros k Hk Hs. rewrite <-Hs. apply (frame_rd _ _ _ _ _ Hf).
    intros l Hm. unfold repaired, field_if, field. cbv zeta.
    destruct Hk as [->| ->]; rewrite Hs; simpl;
      intros [(Hb & _ & ?)|[(Hb & _ & ?)|(_ & _ & ?)]]; congruence.
  - intros Hs.
    destruct (rd_path_not_nullish h raw "data" "uid") as [Hraw Hdata].
    { by rewrite Hs. }
    destruct (dataConstructor_spec raw h Hraw Hdata)
      as (out & h' & -> & _ & _ & Hok & _ & Hstr & _).
    simpl. split; [by rewrite (Hstr _ Hs)|]. apply Hok. right. by rewrite Hs.
  - intros metadata k h0 Hm Hv.
    destruct (coerceTimestamp_spec metadata k h0 Hm) as (h1 & -> & _ & _ & Hid & _).
    f_equal. apply Hid. by destruct Hv as [->| ->].
  - intros h0 Hraw Hdata Hv. apply canonicalizeUid_falsy; [done|done|].
    by destruct Hv as [->| ->].
Qed.

End normalizer.

(** ** The builder *)

(** C6. From one builder, for any two handlers: the descriptors of
    [onCreate] and [onDelete] carry the builder's resource and the provider
    id ['firebase.auth'], the event types ['user.create'] and
    ['user.delete'], which differ, each its own handler, and
    [dataConstructor] as the normalizer. *)
Theorem builder_isolation (Date_parse : string → option Z) (H : Type)
    (b : UserBuilder.t) (created deleted : H) :
  let c := UserBuilder.onCreate Date_parse b created in
  let d := UserBuilder.onDelete Date_parse b deleted in
  CloudFunctions.resource c = UserBuilder.resource b
  ∧ CloudFunctions.resource d = UserBuilder.resource b
  ∧ CloudFunctions.providerId c = "firebase.auth"
  ∧ CloudFunctions.providerId d = "firebase.auth"
  ∧ CloudFunctions.eventType c = "user.create"
  ∧ CloudFunctions.eventType d = "user.delete"
  ∧ CloudFunctions.eventType c ≠ CloudFunctions.eventType d
  ∧ CloudFunctions.handler c = created
  ∧ CloudFunctions.handler d = deleted
  ∧ CloudFunctions.normalize c = UserBuilder.dataConstructor Date_parse
  ∧ CloudFunctions.normalize d = UserBuilder.dataConstructor Date_parse.
Proof.
  cbv zeta. unfold UserBuilder.onCreate, UserBuilder.onDelete,
    CloudFunctions.makeCloudFunction, provider. simpl.
  repeat split. discriminate.
Qed.

(** C7. Where the environment sets [GCLOUD_PROJECT] to [p], the builder of
    [user()] is bound to ["projects/" + p]; and an environment that agrees on
    that one variable gives the same builder, whatever else it holds. *)
Theorem user_resource (e e' : env) (p : string) :
  e !! "GCLOUD_PROJECT" = Some p →
  e' !! "GCLOUD_PROJECT" = e !! "GCLOUD_PROJECT" →
  UserBuilder.resource (user e) = "projects/" +:+ p ∧ user e' = user e.
Proof.
  intros Hp Hagree. unfold user. rewrite Hagree, Hp. done.
Qed.

(** Where the variable is not set, the text is that of [undefined]. *)
Lemma user_resource_unset (e : env) :
  e !! "GCLOUD_PROJECT" = None →
  UserBuilder.resource (user e) = "projects/undefined".
Proof. intros Hp. unfold user. by rewrite Hp. Qed.

(** ** The envelope *)

Lemma rd_alloc_empty h l kd v k :
  h !! l = None → rd (<[l:=Obj ∅ kd]> h) v k = rd h v k.
Proof.
  intros Hl. destruct v as [| | | | |l']; try done. unfold rd.
  destruct (decide (l = l')) as [<-|Hne].
  - by rewrite lookup_insert_eq, Hl.
  - by rewrite lookup_insert_ne.
Qed.

(** C8, as the code has it. [new FirebaseEvent(options)] on an [options]
    object returns a new object whose properties are exactly [service],
    [type], [instance], [uid], [deviceId] and [data], each with what
    [options] reads under that name ([undefined] where it has none); it has
    no [resource] property, and nothing else in the heap changes. *)
Theorem FirebaseEvent_shape options h :
  nullish options = false →
  ∃ e props,
    h !! e = None
    ∧ FirebaseEvent.new options h = (Ok (VRef e), <[e:=Obj props Ordinary]> h)
    ∧ dom props = list_to_set envelope_fields
    ∧ (∀ k, k ∈ envelope_fields → props !! k = Some (rd h options k))
    ∧ props !! "resource" = None.
Proof.
  intros Hopt. set (e := fresh (dom h)).
  assert (h !! e = None) as Hfresh by (apply not_elem_of_dom, is_fresh).
  eexists e, _. split; [done|]. split.
  - unfold FirebaseEvent.new, bind, alloc. fold e. cbv zeta.
    rewrite !get_run by done. rewrite !rd_alloc_empty by done.
    unfold put, ret. rewrite !alter_insert_eq. unfold set_own. simpl.
    reflexivity.
  - split; [|split].
    + rewrite !dom_insert_L, dom_empty_L. unfold envelope_fields. simpl.
      set_solver.
    + intros k Hk. unfold envelope_fields in Hk.
      repeat (apply elem_of_cons in Hk as [->|Hk]; [by simplify_map_eq|]).
      by apply elem_of_nil in Hk.
    + by simplify_map_eq.
Qed.

(** ** The claims at the sample payloads *)

(** The end-to-end scenario: the record is [data], its uid is ["99"] and its
    [createdAt] a Date of the parsed instant. *)
Example scenario_run :
  sample_run.1 = Ok (VRef 2)
  ∧ rd sample_run.2 (VRef 2) "uid" = VStr "99"
  ∧ rd sample_run.2 (VRef 3) "createdAt" = VRef 4
  ∧ sample_run.2 !! 4%positive = Some (Obj ∅ (DateObj (Some 1588291200000))).
Proof. vm_compute. done. Qed.

(** C1 at the scenario's payload: the call returns [data]. *)
Lemma uid_canonicalization_witness :
  ∃ out h',
    UserBuilder.dataConstructor sample_parse (VRef 1) sample_heap = (out, h')
    ∧ out = Ok (VRef 2)
    ∧ ∃ r, rd h' (VRef 2) "uid" = VStr r ∧ contains "/" r = false.
Proof.
  destruct (uid_canonicalization sample_parse (VRef 1) sample_heap 2 sample_data)
    as (out & h' & Hrun & Hstr & _);
    [vm_compute; reflexivity|vm_compute; reflexivity|].
  destruct (Hstr "http://x/99") as (Hout & r & Hr & Hsep & _);
    [vm_compute; reflexivity|].
  destruct Hsep as (pre & _ & Hnone); [vm_compute; reflexivity|].
  exists out, h'. split; [exact Hrun|]. split; [exact Hout|].
  exists r. split; [exact Hr|exact Hnone].
Defined.

(** C2 as it stands fails on the empty string: [createdAt] is a string
    before the call and the same string, not a Date, after it. *)
Lemma empty_timestamp_not_parsed :
  is_string (rd empty_strings_heap (VRef 3) "createdAt") = true
  ∧ rd (UserBuilder.dataConstructor sample_parse (VRef 1) empty_strings_heap).2
       (VRef 3) "createdAt" = VStr ""
  ∧ (UserBuilder.dataConstructor sample_parse (VRef 1) empty_strings_heap).1
    = Ok (VRef 2).
Proof. vm_compute. done. Qed.

(** C2 at the scenario's payload. *)
Lemma timestamp_coercion_witness :
  ∃ l, rd sample_run.2 (VRef 3) "createdAt" = VRef l
       ∧ sample_run.2 !! l = Some (Obj ∅ (DateObj (Some 1588291200000))).
Proof.
  destruct (timestamp_coercion sample_parse (VRef 1) sample_heap "createdAt")
    as (Hdate & _); [right; reflexivity|].
  destruct (Hdate "2020-05-01T00:00:00Z") as (l & _ & Hr & Hl);
    [vm_compute; reflexivity|discriminate|].
  exists l. split; [exact Hr|exact Hl].
Defined.

(** C3 at a normalized payload. *)
Lemma normalization_idempotent_witness :
  UserBuilder.dataConstructor sample_parse (VRef 1) normalized_heap
  = (Ok (VRef 2), normalized_heap).
Proof.
  apply (proj2 (normalization_idempotent sample_parse (VRef 1) normalized_heap)).
  vm_compute. reflexivity.
Defined.

(** C4 as it stands fails at the scenario's payload: the caller's [data]
    object has another uid after the call. *)
Lemma dataConstructor_writes_input :
  rd sample_heap (VRef 2) "uid" = VStr "http://x/99"
  ∧ rd (UserBuilder.dataConstructor sample_parse (VRef 1) sample_heap).2
       (VRef 2) "uid" = VStr "99"
  ∧ rd sample_heap (VRef 3) "createdAt" = VStr "2020-05-01T00:00:00Z"
  ∧ rd (UserBuilder.dataConstructor sample_parse (VRef 1) sample_heap).2
       (VRef 3) "createdAt" = VRef 4.
Proof. vm_compute. done. Qed.

(** C4 as amended, at the normalized payload: nothing to repair, nothing
    written. *)
Lemma dataConstructor_in_place_witness :
  ∃ out h',
    UserBuilder.dataConstructor sample_parse (VRef 1) normalized_heap = (out, h')
    ∧ h' = normalized_heap.
Proof.
  destruct (dataConstructor_in_place sample_parse (VRef 1) normalized_heap)
    as (out & h' & Hrun & _ & _ & Hsame); [reflexivity|vm_compute; reflexivity|].
  exists out, h'. split; [exact Hrun|]. apply Hsame.
  split; [vm_compute; reflexivity|]. split; [vm_compute; reflexivity|].
  intros s Hs. vm_compute in Hs. injection Hs as <-. reflexivity.
Defined.

(** C5 as it stands fails on the empty string: the parser would reject it,
    the payload has the wire shape and the call returns, but
    [lastSignedInAt] is the same string after the call, not an invalid
    Date. *)
Lemma empty_timestamp_stays_string :
  sample_parse "" = None
  ∧ rd empty_strings_heap (VRef 3) "lastSignedInAt" = VStr ""
  ∧ (UserBuilder.dataConstructor sample_parse (VRef 1) empty_strings_heap).1
    = Ok (VRef 2)
  ∧ rd (UserBuilder.dataConstructor sample_parse (VRef 1) empty_strings_heap).2
       (VRef 3) "lastSignedInAt" = VStr "".
Proof. vm_compute. done. Qed.

(** C5 as amended, at a payload without uid and with a timestamp that does
    not parse. *)
Lemma dataConstructor_total_witness :
  ∃ h', UserBuilder.dataConstructor sample_parse (VRef 1) malformed_heap
        = (Ok (VRef 2), h')
    ∧ ∃ l, rd h' (VRef 3) "createdAt" = VRef l
           ∧ h' !! l = Some (Obj ∅ (DateObj None)).
Proof.
  destruct (dataConstructor_total sample_parse (VRef 1) malformed_heap 2 malformed_data)
    as (h' & Hrun & Hbad & _);
    [vm_compute; reflexivity|vm_compute; reflexivity|reflexivity|].
  exists h'. split; [exact Hrun|].
  apply (Hbad "createdAt" "yesterday");
    [right; reflexivity|vm_compute; reflexivity|discriminate|reflexivity].
Defined.

(** C7 at the sample environment, against the environment that holds the
    project identifier alone. *)
Lemma user_resource_witness :
  UserBuilder.resource (user sample_env) = "projects/p1"
  ∧ user {[ "GCLOUD_PROJECT" := "p1" ]} = user sample_env.
Proof.
  apply (user_resource sample_env {[ "GCLOUD_PROJECT" := "p1" ]} "p1");
    vm_compute; reflexivity.
Defined.

(** C8 as it stands fails: the envelope built from the sample options has
    its [service] and no [resource]. *)
Lemma envelope_without_resource :
  (FirebaseEvent.new (VRef 1) options_heap).1 = Ok (VRef 3)
  ∧ rd (FirebaseEvent.new (VRef 1) options_heap).2 (VRef 3) "service" = VStr "auth"
  ∧ ((FirebaseEvent.new (VRef 1) options_heap).2 !! 3%positive
       ≫= λ o, own o !! "resource") = None.
Proof. vm_compute. done. Qed.

(** C8 as amended, at the sample options. *)
Lemma FirebaseEvent_shape_witness :
  ∃ e props,
    FirebaseEvent.new (VRef 1) options_heap
    = (Ok (VRef e), <[e:=Obj props Ordinary]> options_heap)
    ∧ props !! "service" = Some (VStr "auth")
    ∧ props !! "resource" = None.
Proof.
  destruct (FirebaseEvent_shape (VRef 1) options_heap)
    as (e & props & _ & Hrun & _ & Hprops & Hnone); [reflexivity|].
  exists e, props. split; [exact Hrun|]. split; [|exact Hnone].
  rewrite (Hprops "service"); [vm_compute; reflexivity|].
  unfold envelope_fields. apply elem_of_cons. by left.
Defined.

(** C9 at the payload of empty strings. *)
Lemma empty_strings_untouched_witness :
  rd (UserBuilder.dataConstructor sample_parse (VRef 1) empty_strings_heap).2
     (VRef 2) "uid" = VStr ""
  ∧ (UserBuilder.dataConstructor sample_parse (VRef 1) empty_strings_heap).1
    = Ok (VRef 2).
Proof.
  apply (proj1 (proj2
    (empty_strings_untouched sample_parse (VRef 1) empty_strings_heap))).
  vm_compute. reflexivity.
Defined.

(** ** Further properties of [dataConstructor] *)

Section further.

Variable Date_parse : string → option Z.

#[local] Abbreviation coerceMetadata := (UserBuilder.coerceMetadata Date_parse).
#[local] Abbreviation dataConstructor := (UserBuilder.dataConstructor Date_parse).
#[local] Abbreviation canonicalizeUid := UserBuilder.canonicalizeUid.

(** The heap of the whole call is the heap the uid block leaves, started
    from the heap the timestamp block leaves. *)
Lemma dataConstructor_heap raw h :
  nullish raw = false → nullish (rd h raw "data") = false →
  (dataConstructor raw h).2 = (canonicalizeUid raw (coerceMetadata raw h).2).2.
Proof.
  intros Hraw Hdata.
  destruct (coerceMetadata_spec Date_parse raw h Hraw Hdata) as (h1 & Hrun1 & _).
  unfold UserBuilder.dataConstructor, bind. rewrite Hrun1. simpl.
  destruct (canonicalizeUid raw h1) as [[u|e] h2]; simpl; [|done].
  by rewrite get_run by done.
Qed.

(** The timestamp block leaves every property but the two timestamps. *)
Lemma coerceMetadata_paths raw h v k :
  nullish raw = false → nullish (rd h raw "data") = false →
  k ≠ "lastSignedInAt" → k ≠ "createdAt" →
  rd (coerceMetadata raw h).2 v k = rd h v k.
Proof.
  intros Hraw Hdata Hlsi Hca.
  destruct (coerceMetadata_spec Date_parse raw h Hraw Hdata) as (h1 & -> & Hf1 & _).
  apply (frame_rd _ _ _ _ _ Hf1). intros l _ [(_ & _ & ?)|(_ & _ & ?)]; done.
Qed.

(** The call leaves every property but the three repaired names. *)
Lemma dataConstructor_paths raw h v k :
  k ≠ "lastSignedInAt" → k ≠ "createdAt" → k ≠ "uid" →
  rd (dataConstructor raw h).2 v k = rd h v k.
Proof.
  intros Hlsi Hca Huid.
  apply (frame_rd _ _ _ _ _ (dataConstructor_changes Date_parse raw h)).
  intros l _ Hr. apply (repaired_names Date_parse) in Hr. tauto.
Qed.

Lemma rd_nullish h v k : nullish v = true → rd h v k = VUndefined.
Proof. by destruct v. Qed.

(** A truthy uid that is not a string (a number, an object) makes the
    call throw a TypeError at line 63. By then the timestamp block has run:
    the heap is the one it leaves, with each non-empty timestamp string
    already replaced by its Date. *)
Theorem dataConstructor_throw_keeps_timestamps raw h :
  nullish raw = false → nullish (rd h raw "data") = false →
  truthy (rd h (rd h raw "data") "uid") = true →
  is_string (rd h (rd h raw "data") "uid") = false →
  let m := rd h (rd h raw "data") "metadata" in
  let h' := (coerceMetadata raw h).2 in
  dataConstructor raw h = (Throw TypeError, h')
  ∧ ∀ k s, k = "lastSignedInAt" ∨ k = "createdAt" →
      rd h m k = VStr s → s ≠ "" →
      ∃ l, h !! l = None ∧ rd h' m k = VRef l
           ∧ h' !! l = Some (Obj ∅ (DateObj (Date_parse s))).
Proof.
  intros Hraw Hdata Htruthy Hstr. cbv zeta.
  pose proof (dataConstructor_heap raw h Hraw Hdata) as Hheap.
  destruct (dataConstructor_spec Date_parse raw h Hraw Hdata)
    as (out & h2 & Hrun & _ & Hthrow & _).
  rewrite Hrun in Hheap. simpl in Hheap.
  destruct (coerceMetadata_spec Date_parse raw h Hraw Hdata)
    as (h1 & Hrun1 & Hf1 & _ & _ & Hdates).
  pose proof (coerceMetadata_paths raw h) as Hrd1. rewrite Hrun1 in Hheap, Hrd1 |- *.
  simpl in *.
  assert (nullish (rd h1 raw "data") = false) as Hnull1 by by rewrite Hrd1.
  destruct (canonicalizeUid_spec raw h1 Hraw Hnull1) as (out2 & h3 & Hrun2 & _ & Hid & _).
  rewrite Hrun2 in Hheap. simpl in Hheap. rewrite !Hrd1 in Hid by done.
  rewrite Hrun, (Hthrow Htruthy Hstr), Hheap, (Hid Hstr). done.
Qed.

(** A payload that is [undefined] or [null], or whose [data] is, makes the
    first read of line 44 throw, before any write. *)
Theorem dataConstructor_throws_without_data raw h :
  nullish raw = true ∨ nullish (rd h raw "data") = true →
  dataConstructor raw h = (Throw TypeError, h).
Proof. apply dataConstructor_no_data. Qed.

(** After a call, whatever the payload and whether or not the call threw,
    there is nothing left to repair: read again from the heap the call
    leaves, neither timestamp is a non-empty string and a string uid holds
    no ['/']. *)
Theorem dataConstructor_leaves_nothing_to_repair raw h :
  let h' := (dataConstructor raw h).2 in
  let data := rd h' raw "data" in
  let m := rd h' data "metadata" in
  nonempty_string (rd h' m "lastSignedInAt") = false
  ∧ nonempty_string (rd h' m "createdAt") = false
  ∧ ∀ s, rd h' data "uid" = VStr s → contains "/" s = false.
Proof.
  cbv zeta. rewrite !(dataConstructor_paths raw h _ "data") by done.
  rewrite !(dataConstructor_paths raw h _ "metadata") by done.
  destruct (nullish raw || nullish (rd h raw "data")) eqn:Hnull.
  - apply orb_true_iff in Hnull.
    assert (nullish (rd h raw "data") = true) as Hdata.
    { destruct Hnull as [Hraw|]; [|done]. by rewrite rd_nullish. }
    rewrite (dataConstructor_no_data Date_parse raw h Hnull). simpl.
    rewrite !(rd_nullish h (rd h raw "data")) by done.
    by rewrite !(rd_nullish h VUndefined).
  - apply orb_false_iff in Hnull as [Hraw Hdata].
    destruct (dataConstructor_spec Date_parse raw h Hraw Hdata)
      as (out & h' & -> & _ & _ & _ & Hns & Hstr & Hne & _).
    simpl. split; [apply Hne; auto|]. split; [apply Hne; auto|].
    intros s Hs.
    destruct (is_string (rd h (rd h raw "data") "uid")) eqn:Hs0.
    + destruct (rd h (rd h raw "data") "uid") as [| | | |s0|]; try done.
      rewrite (Hstr s0 eq_refl) in Hs. injection Hs as <-.
      apply suffix_has_no_separator.
    + rewrite (Hns eq_refl) in Hs. by rewrite Hs in Hs0.
Qed.

(** Behind any prefix and a ['/'], a part [t] without ['/'] is what
    [lastIndexOf] and [substring] cut out. *)
Lemma substring_of_prefixed pre t c :
  contains c t = false →
  substring (pre +:+ String c t) (lastIndexOf (pre +:+ String c t) c + 1) = t.
Proof.
  intros Ht.
  assert (0 ≤ lastIndexOf (pre +:+ String c t) c
          ∧ substring (pre +:+ String c t)
              (lastIndexOf (pre +:+ String c t) c + 1) = t) as [_ ?]; [|done].
  induction pre as [|a pre [IH1 IH2]].
  - change ("" +:+ String c t) with (String c t). simpl.
    apply lastIndexOf_contains in Ht. rewrite Ht. simpl.
    destruct (Ascii.eqb_spec c c); [|done]. split; [lia|reflexivity].
  - change (String a pre +:+ String c t) with (String a (pre +:+ String c t)).
    simpl. destruct (Z.leb_spec 0 (lastIndexOf (pre +:+ String c t) c)); [|lia].
    split; [lia|]. by rewrite substring_cons by lia.
Qed.

(** Prefix stripping. Whatever precedes the last ['/'] of a uid is dropped:
    for a uid [pre + "/" + t] with no ['/'] in [t], the call returns [data]
    and its uid is then [t]. A uid that ends in ['/'] ([t] empty) becomes the
    empty string. *)
Theorem uid_prefix_stripped raw h d o pre t :
  rd h raw "data" = VRef d → h !! d = Some o →
  own o !! "uid" = Some (VStr (pre +:+ String "/" t)) →
  contains "/" t = false →
  ∃ h', dataConstructor raw h = (Ok (VRef d), h')
        ∧ rd h' (VRef d) "uid" = VStr t.
Proof.
  intros Hd Hl Huid Ht.
  assert (nullish raw = false) as Hraw by by eapply rd_ref_not_nullish.
  assert (nullish (rd h raw "data") = false) as Hdata by by rewrite Hd.
  destruct (dataConstructor_spec Date_parse raw h Hraw Hdata)
    as (out & h' & -> & _ & _ & Hok & _ & Hstr & _).
  rewrite Hd in Hok, Hstr. rewrite (rd_object _ _ _ _ Hl), Huid in Hok, Hstr.
  exists h'. split.
  - f_equal. apply Hok. by right.
  - rewrite (Hstr _ eq_refl). by rewrite substring_of_prefixed.
Qed.

(** A [metadata] that is not an object (a string, a number, [true]) passes
    the guard of line 44 and is then ignored: the timestamp block returns
    without a write, and the call does what the uid block alone does. *)
Theorem primitive_metadata_ignored raw h :
  nullish raw = false → nullish (rd h raw "data") = false →
  (∀ l, rd h (rd h raw "data") "metadata" ≠ VRef l) →
  coerceMetadata raw h = (Ok tt, h)
  ∧ (dataConstructor raw h).2 = (canonicalizeUid raw h).2.
Proof.
  intros Hraw Hdata Hprim.
  assert (coerceMetadata raw h = (Ok tt, h)) as Hrun1.
  { destruct (coerceMetadata_spec Date_parse raw h Hraw Hdata)
      as (h1 & -> & _ & _ & Hid & _).
    f_equal. apply Hid. intros k _.
    destruct (rd h (rd h raw "data") "metadata") as [| | | | |l]; try done.
    by destruct (Hprim l). }
  split; [done|]. rewrite dataConstructor_heap by done. by rewrite Hrun1.
Qed.

(** Two timestamp strings get two Dates: when both timestamps are non-empty
    strings, the two fields afterwards refer to two different new objects,
    each holding the parse of its own string, also when the strings are
    equal. *)
Theorem timestamps_get_distinct_dates raw h s1 s2 :
  let m := rd h (rd h raw "data") "metadata" in
  rd h m "lastSignedInAt" = VStr s1 → s1 ≠ "" →
  rd h m "createdAt" = VStr s2 → s2 ≠ "" →
  let h' := (dataConstructor raw h).2 in
  ∃ l1 l2, l1 ≠ l2
    ∧ h !! l1 = None ∧ h !! l2 = None
    ∧ rd h' m "lastSignedInAt" = VRef l1
    ∧ rd h' m "createdAt" = VRef l2
    ∧ h' !! l1 = Some (Obj ∅ (DateObj (Date_parse s1)))
    ∧ h' !! l2 = Some (Obj ∅ (DateObj (Date_parse s2))).
Proof.
  cbv zeta. remember (rd h (rd h raw "data") "metadata") as m eqn:Hmdef.
  intros Hs1 Hne1 Hs2 Hne2.
  destruct (rd_defined h m "lastSignedInAt") as (ml & mo & Hm & Hml & _);
    [by rewrite Hs1|].
  destruct (rd_path_not_nullish h raw "data" "metadata") as [Hraw Hdata];
    [by rewrite <-Hmdef, Hm|].
  assert (nullish m = false) as Hmn by by rewrite Hm.
  rewrite dataConstructor_heap by done.
  (* the timestamp block, one guard after the other *)
  assert (∃ h2 l1 l2, coerceMetadata raw h = (Ok tt, h2) ∧ l1 ≠ l2
            ∧ h !! l1 = None ∧ h !! l2 = None
            ∧ rd h2 m "lastSignedInAt" = VRef l1
            ∧ rd h2 m "createdAt" = VRef l2
            ∧ h2 !! l1 = Some (Obj ∅ (DateObj (Date_parse s1)))
            ∧ h2 !! l2 = Some (Obj ∅ (DateObj (Date_parse s2))))
    as (h2 & l1 & l2 & Hrun1 & Hdiff & Hn1 & Hn2 & Hr1 & Hr2 & Hd1 & Hd2).
  { unfold UserBuilder.coerceMetadata, bind. rewrite !get_run by done.
    rewrite <-Hmdef.
    assert (truthy m = true) as -> by by rewrite Hm.
    rewrite !get_run by done. rewrite <-Hmdef.
    destruct (coerceTimestamp_spec Date_parse m "lastSignedInAt" h Hmn)
      as (h1 & -> & Hf1 & _ & _ & Hdate1).
    destruct (Hdate1 s1 Hs1 Hne1) as (l1 & Hn1 & Hr1 & Hd1).
    assert (rd h1 m "createdAt" = VStr s2) as Hs2'.
    { rewrite <-Hs2. apply (frame_rd _ _ _ _ _ Hf1). by intros l _ (_ & _ & ?). }
    destruct (coerceTimestamp_spec Date_parse m "createdAt" h1 Hmn)
      as (h2 & -> & Hf2 & _ & _ & Hdate2).
    destruct (Hdate2 s2 Hs2' Hne2) as (l2 & Hn2 & Hr2 & Hd2).
    exists h2, l1, l2. split; [done|]. split; [congruence|].
    split; [done|]. split; [by apply (frame_none_back _ _ _ _ Hf1)|].
    split; [|split; [done|]].
    - rewrite <-Hr1. apply (frame_rd _ _ _ _ _ Hf2). by intros l _ (_ & _ & ?).
    - split; [|done]. by apply (frame_date_persists _ _ _ _ _ Hf2). }
  rewrite Hrun1. simpl.
  pose proof (coerceMetadata_paths raw h) as Hrd1. rewrite Hrun1 in Hrd1. simpl in Hrd1.
  assert (nullish (rd h2 raw "data") = false) as Hnull2 by by rewrite Hrd1.
  destruct (canonicalizeUid_spec raw h2 Hraw Hnull2) as (out & h3 & -> & Hf3 & _).
  simpl.
  assert (∀ k, k ≠ "uid" → rd h3 m k = rd h2 m k) as Hrd3.
  { intros k ?. apply (frame_rd _ _ _ _ _ Hf3). by intros l _ (_ & _ & ?). }
  exists l1, l2. rewrite !Hrd3 by done.
  repeat (split; [done|]).
  split; by apply (frame_date_persists _ _ _ _ _ Hf3).
Qed.

(** The record is not an envelope: what the call returns is [raw.data],
    so handing that record back to [dataConstructor] reads [data] off the
    record itself; when the record has no [data] property of its own, that
    second call throws at line 44 and writes nothing. *)
Theorem record_is_not_an_envelope raw h d o :
  rd h raw "data" = VRef d → h !! d = Some o →
  own o !! "data" = None → optional_string (own o !! "uid") = true →
  ∃ h', dataConstructor raw h = (Ok (VRef d), h')
        ∧ dataConstructor (VRef d) h' = (Throw TypeError, h').
Proof.
  intros Hd Hl Hnodata Huid.
  assert (nullish raw = false) as Hraw by by eapply rd_ref_not_nullish.
  assert (nullish (rd h raw "data") = false) as Hdata by by rewrite Hd.
  destruct (dataConstructor_spec Date_parse raw h Hraw Hdata)
    as (out & h' & -> & [Hold _] & _ & Hok & _).
  rewrite Hd in Hok. rewrite (rd_object _ _ _ _ Hl) in Hok.
  exists h'. split.
  - f_equal. apply Hok. destruct (own o !! "uid") as [[]|]; try done; auto.
  - apply dataConstructor_no_data. right.
    destruct (Hold d o Hl) as (o' & Hl' & _ & Hdom & _).
    rewrite (rd_object _ _ _ _ Hl').
    assert (own o' !! "data" = None) as ->; [|done].
    apply not_elem_of_dom. rewrite Hdom. by apply not_elem_of_dom.
Qed.

(** The envelope itself is left alone: when the envelope object is neither
    its own [data] nor its own [metadata], the call changes none of its
    properties ([service], [type], [resource], an event-level [uid], ...),
    whether or not it throws. *)
Theorem envelope_untouched raw h r :
  raw = VRef r →
  rd h raw "data" ≠ VRef r →
  rd h (rd h raw "data") "metadata" ≠ VRef r →
  (dataConstructor raw h).2 !! r = h !! r.
Proof.
  intros -> Hdata Hmeta.
  destruct (h !! r) as [o|] eqn:Hr.
  - destruct (dataConstructor_changes Date_parse (VRef r) h) as [Hold _].
    destruct (Hold r o Hr) as ([p' kd'] & -> & Hkind & _ & Hsame).
    destruct o as [p kd]. simpl in *. f_equal. f_equal; [|done].
    apply map_eq. intros k. apply Hsame.
    unfold repaired, field_if, field. cbv zeta.
    intros [(_ & ? & _)|[(_ & ? & _)|(_ & ? & _)]]; congruence.
  - rewrite dataConstructor_no_data; [done|]. right.
    unfold rd. by rewrite Hr.
Qed.

End further.

(** *** What the date parser can change *)

Section parsers.

Variables P Q : string → option Z.

Lemma same_but_dates_refl h : same_but_dates P Q h h.
Proof. intros l. by left. Qed.

Lemma same_but_dates_rd h1 h2 v k :
  same_but_dates P Q h1 h2 → rd h1 v k = rd h2 v k.
Proof.
  intros Hrel. destruct v as [| | | | |l]; try done. unfold rd.
  destruct (Hrel l) as [->|(o1 & o2 & s & -> & -> & Hown & _)]; [done|].
  simpl. by rewrite Hown.
Qed.

Lemma same_but_dates_dom h1 h2 : same_but_dates P Q h1 h2 → dom h1 = dom h2.
Proof.
  intros Hrel. apply set_eq. intros l. rewrite !elem_of_dom.
  destruct (Hrel l) as [->|(o1 & o2 & s & -> & -> & _)]; [done|].
  split; eauto.
Qed.

Lemma alike_ret {A} (a : A) : alike P Q (ret a) (ret a).
Proof. by intros h1 h2 Hrel. Qed.

Lemma alike_throw {A} e : alike P Q (@throw A e) (throw e).
Proof. by intros h1 h2 Hrel. Qed.

Lemma alike_bind {A B} (c1 c2 : M A) (f1 f2 : A → M B) :
  alike P Q c1 c2 → (∀ a, alike P Q (f1 a) (f2 a)) →
  alike P Q (bind c1 f1) (bind c2 f2).
Proof.
  intros Hc Hf h1 h2 Hrel. unfold bind.
  destruct (Hc h1 h2 Hrel) as [Hout Hrel'].
  destruct (c1 h1) as [[a1|e1] h1'], (c2 h2) as [[a2|e2] h2']; simpl in *;
    try done.
  - injection Hout as ->. by apply Hf.
  - by injection Hout as ->.
Qed.

Lemma alike_get v k : alike P Q (get v k) (get v k).
Proof.
  intros h1 h2 Hrel. unfold get.
  rewrite (same_but_dates_rd h1 h2 v k Hrel). by destruct v.
Qed.

Lemma alike_put v k x : alike P Q (put v k x) (put v k x).
Proof.
  intros h1 h2 Hrel. destruct v as [| | | | |l]; try done. simpl.
  split; [done|]. intros l'. destruct (decide (l = l')) as [<-|Hne].
  - rewrite !lookup_alter_eq.
    destruct (Hrel l) as [->|(o1 & o2 & s & -> & -> & Hown & Hk1 & Hk2)];
      [by left|].
    right. exists (set_own k x o1), (set_own k x o2), s. simpl.
    by rewrite Hown.
  - rewrite !lookup_alter_ne by done. apply Hrel.
Qed.

Lemma alike_new_Date s : alike P Q (new_Date P s) (new_Date Q s).
Proof.
  intros h1 h2 Hrel. unfold new_Date, alloc. simpl.
  rewrite (same_but_dates_dom h1 h2 Hrel). split; [done|].
  intros l. destruct (decide (fresh (dom h2) = l)) as [<-|Hne].
  - rewrite !lookup_insert_eq. right. by eexists _, _, s.
  - rewrite !lookup_insert_ne by done. apply Hrel.
Qed.

Lemma alike_call_lastIndexOf v c :
  alike P Q (call_lastIndexOf v c) (call_lastIndexOf v c).
Proof. destruct v; (apply alike_ret || apply alike_throw). Qed.

Lemma alike_call_substring v i :
  alike P Q (call_substring v i) (call_substring v i).
Proof. destruct v; (apply alike_ret || apply alike_throw). Qed.

Lemma alike_coerceTimestamp metadata k :
  alike P Q (UserBuilder.coerceTimestamp P metadata k)
            (UserBuilder.coerceTimestamp Q metadata k).
Proof.
  apply alike_bind; [apply alike_get|]. intros v.
  destruct (truthy v); [|apply alike_ret].
  destruct (typeof_string v) as [s|]; [|apply alike_ret].
  apply alike_bind; [apply alike_new_Date|]. intros d. apply alike_put.
Qed.

Lemma alike_coerceMetadata raw :
  alike P Q (UserBuilder.coerceMetadata P raw) (UserBuilder.coerceMetadata Q raw).
Proof.
  apply alike_bind; [apply alike_get|]. intros data.
  apply alike_bind; [apply alike_get|]. intros m.
  destruct (truthy m); [|apply alike_ret].
  apply alike_bind; [apply alike_get|]. intros data'.
  apply alike_bind; [apply alike_get|]. intros metadata.
  apply alike_bind; [apply alike_coerceTimestamp|]. intros _.
  apply alike_coerceTimestamp.
Qed.

Lemma alike_canonicalizeUid raw :
  alike P Q (UserBuilder.canonicalizeUid raw) (UserBuilder.canonicalizeUid raw).
Proof.
  apply alike_bind; [apply alike_get|]. intros data.
  apply alike_bind; [apply alike_get|]. intros uid.
  destruct (truthy uid); [|apply alike_ret].
  repeat (apply alike_bind; [apply alike_get|]; intros ?).
  apply alike_bind; [apply alike_call_lastIndexOf|]. intros i.
  apply alike_bind; [apply alike_call_substring|]. intros s.
  apply alike_put.
Qed.

Lemma alike_dataConstructor raw :
  alike P Q (UserBuilder.dataConstructor P raw) (UserBuilder.dataConstructor Q raw).
Proof.
  apply alike_bind; [apply alike_coerceMetadata|]. intros _.
  apply alike_bind; [apply alike_canonicalizeUid|]. intros _.
  apply alike_bind; [apply alike_get|]. intros data. apply alike_ret.
Qed.

(** The date parser decides the time values of the new Dates and nothing
    else. With any two parsers [P] and [Q], on the same payload and heap:
    the call returns or throws alike; and at every location the two heaps
    it leaves hold the same thing, unless the location is new and holds, in
    the one heap, a Date without properties of the time value [P s] and, in
    the other, one of the time value [Q s], for the same string [s]; and
    every property read gives the same value in both heaps. So every object
    that was there, its uid and timestamp fields included, and the place of
    every new Date are the same under both parsers. *)
Theorem parser_only_sets_time_values raw h :
  (UserBuilder.dataConstructor P raw h).1 = (UserBuilder.dataConstructor Q raw h).1
  ∧ (∀ l,
       (UserBuilder.dataConstructor P raw h).2 !! l
       = (UserBuilder.dataConstructor Q raw h).2 !! l
       ∨ (h !! l = None
          ∧ ∃ s, (UserBuilder.dataConstructor P raw h).2 !! l
                 = Some (Obj ∅ (DateObj (P s)))
               ∧ (UserBuilder.dataConstructor Q raw h).2 !! l
                 = Some (Obj ∅ (DateObj (Q s)))))
  ∧ ∀ v k, rd (UserBuilder.dataConstructor P raw h).2 v k
           = rd (UserBuilder.dataConstructor Q raw h).2 v k.
Proof.
  destruct (alike_dataConstructor raw h h (same_but_dates_refl h)) as [Hout Hrel].
  split; [done|]. split; [|intros v k; by apply same_but_dates_rd].
  intros l.
  destruct (Hrel l) as [Heq|(o1 & o2 & s & Hl1 & Hl2 & Hown & Hk1 & Hk2)];
    [by left|].
  destruct (dataConstructor_changes P raw h) as [Hold1 Hnew1].
  destruct (dataConstructor_changes Q raw h) as [Hold2 _].
  destruct (h !! l) as [o|] eqn:Hl.
  - left. destruct (Hold1 l o Hl) as (o1' & Hl1' & Hkind1 & _).
    destruct (Hold2 l o Hl) as (o2' & Hl2' & Hkind2 & _).
    rewrite Hl1, Hl2. f_equal.
    assert (o1' = o1) as -> by congruence.
    assert (o2' = o2) as -> by congruence.
    destruct o1, o2. simpl in *. congruence.
  - right. split; [done|]. exists s.
    destruct (Hnew1 l Hl) as [Hnone|[tv Hsome]]; [congruence|].
    assert (o1 = Obj ∅ (DateObj tv)) as -> by congruence.
    simpl in *. destruct o2 as [p2 k2]. simpl in *. subst.
    split; [by rewrite Hl1, Hk1|done].
Qed.

End parsers.

(** ** Further properties of [user] and of the envelope *)

(** Two environments that set different project identifiers give builders
    of different resources: the identifier can be read back from the
    resource. *)
Theorem user_injective (e e' : env) (p q : string) :
  e !! "GCLOUD_PROJECT" = Some p → e' !! "GCLOUD_PROJECT" = Some q →
  UserBuilder.resource (user e) = UserBuilder.resource (user e') → p = q.
Proof.
  unfold user. intros -> ->. simpl. apply String.app_inj.
Qed.

(** Where the variable is not set, the resource is the one of a project
    named ["undefined"]. *)
Theorem user_unset_is_undefined (e e' : env) :
  e !! "GCLOUD_PROJECT" = None → e' !! "GCLOUD_PROJECT" = Some "undefined" →
  user e = user e' ∧ UserBuilder.resource (user e) = "projects/undefined".
Proof. unfold user. by intros -> ->. Qed.

(** What [new FirebaseEvent(options)] computes on an object. *)
Lemma FirebaseEvent_new_run options h :
  nullish options = false →
  FirebaseEvent.new options h
  = (Ok (VRef (fresh (dom h))),
     <[fresh (dom h) :=
         Obj (<["data" := rd h options "data"]>
              (<["deviceId" := rd h options "deviceId"]>
               (<["uid" := rd h options "uid"]>
                (<["instance" := rd h options "instance"]>
                 (<["type" := rd h options "type"]>
                  (<["service" := rd h options "service"]> ∅))))))
           Ordinary]> h).
Proof.
  intros Hopt.
  assert (h !! fresh (dom h) = None) as Hfresh by (apply not_elem_of_dom, is_fresh).
  unfold FirebaseEvent.new, bind, alloc. cbv zeta.
  rewrite !get_run by done. rewrite !rd_alloc_empty by done.
  unfold put, ret. rewrite !alter_insert_eq. unfold set_own. simpl.
  reflexivity.
Qed.

(** The envelope shares its payload: [new FirebaseEvent(options)] copies the
    reference [options.data], so normalizing the envelope repairs the
    caller's own payload object. For options whose [data] is an object with
    a string uid [s]: the constructor returns a new envelope [e];
    [dataConstructor] on [e] returns the options' [data] object, whose uid is
    then the part of [s] behind its last ['/'], as [options.data] sees it
    too; and the envelope's own, event-level [uid] is still what the options
    gave, ['/'] or not. *)
Theorem envelope_shares_payload (P : string → option Z) options h d o s :
  rd h options "data" = VRef d → h !! d = Some o →
  own o !! "uid" = Some (VStr s) →
  ∃ e h1 h2,
    h !! e = None
    ∧ FirebaseEvent.new options h = (Ok (VRef e), h1)
    ∧ UserBuilder.dataConstructor P (VRef e) h1 = (Ok (VRef d), h2)
    ∧ rd h2 (rd h2 options "data") "uid"
      = VStr (substring s (lastIndexOf s "/" + 1))
    ∧ rd h2 (VRef e) "uid" = rd h options "uid".
Proof.
  intros Hd Hl Huid.
  assert (nullish options = false) as Hopt by by eapply rd_ref_not_nullish.
  set (e := fresh (dom h)).
  assert (h !! e = None) as Hfresh by (apply not_elem_of_dom, is_fresh).
  assert (d ≠ e) as Hde by congruence.
  pose proof (FirebaseEvent_new_run options h Hopt) as Hnew. fold e in Hnew.
  match type of Hnew with context [<[e:=?x]> h] => set (env := x) in * end.
  set (h1 := <[e:=env]> h) in *.
  assert (h1 !! e = Some env) as He by apply lookup_insert_eq.
  assert (h1 !! d = Some o) as Hl1 by (unfold h1; by rewrite lookup_insert_ne).
  assert (rd h1 (VRef e) "data" = VRef d) as Hd1.
  { rewrite (rd_object _ _ _ _ He). unfold env. simpl.
    by rewrite lookup_insert_eq, Hd. }
  assert (rd h1 (VRef e) "uid" = rd h options "uid") as Huid1.
  { rewrite (rd_object _ _ _ _ He). unfold env. simpl.
    rewrite lookup_insert_ne, lookup_insert_ne, lookup_insert_eq by done. done. }
  assert (rd h1 options "data" = VRef d) as Hod1.
  { destruct (rd_defined h options "data") as (lo & oo & -> & Hlo & _);
      [by rewrite Hd|].
    rewrite <-Hd. unfold rd, h1. rewrite lookup_insert_ne; [done|congruence]. }
  assert (nullish (rd h1 (VRef e) "data") = false) as Hnull by by rewrite Hd1.
  destruct (dataConstructor_spec P (VRef e) h1 eq_refl Hnull)
    as (out & h2 & Hrun & Hf & _ & Hok & _ & Hstr & _).
  rewrite Hd1 in Hok, Hstr. rewrite (rd_object _ _ _ _ Hl1), Huid in Hok, Hstr.
  simpl in Hok, Hstr.
  assert (out = Ok (VRef d)) as -> by (apply Hok; by right).
  exists e, h1, h2. split; [done|]. split; [done|]. split; [done|]. split.
  - assert (rd h2 options "data" = VRef d) as ->; [|by apply Hstr].
    rewrite <-Hod1. apply (frame_rd _ _ _ _ _ Hf).
    intros l _ Hr. apply (repaired_names P) in Hr. by destruct Hr as [|[|]].
  - rewrite <-Huid1. apply (frame_rd _ _ _ _ _ Hf).
    intros l [= <-]. unfold repaired, field_if, field. cbv zeta. rewrite Hd1.
    intros [(_ & _ & ?)|[(_ & _ & ?)|(_ & ? & _)]]; congruence.
Qed.

(** ** The further properties at the sample payloads *)

Lemma dataConstructor_throw_keeps_timestamps_witness :
  (UserBuilder.dataConstructor sample_parse (VRef 1) throwing_heap).1
  = Throw TypeError
  ∧ ∃ l, rd (UserBuilder.coerceMetadata sample_parse (VRef 1) throwing_heap).2
            (VRef 3) "createdAt" = VRef l
         ∧ (UserBuilder.coerceMetadata sample_parse (VRef 1) throwing_heap).2 !! l
           = Some (Obj ∅ (DateObj (Some 1588291200000))).
Proof.
  destruct (dataConstructor_throw_keeps_timestamps sample_parse (VRef 1) throwing_heap)
    as [Hrun Hdates]; [vm_compute; reflexivity..|].
  split; [by rewrite Hrun|].
  destruct (Hdates "createdAt" "2020-05-01T00:00:00Z") as (l & _ & Hr & Hl);
    [right; reflexivity|vm_compute; reflexivity|discriminate|].
  exists l. split; [exact Hr|exact Hl].
Defined.

Lemma dataConstructor_throws_without_data_witness :
  UserBuilder.dataConstructor sample_parse (VRef 1) ∅ = (Throw TypeError, ∅).
Proof.
  apply dataConstructor_throws_without_data. right. vm_compute. reflexivity.
Defined.

Lemma uid_prefix_stripped_witness :
  ∃ h', UserBuilder.dataConstructor sample_parse (VRef 1) sample_heap
        = (Ok (VRef 2), h')
        ∧ rd h' (VRef 2) "uid" = VStr "99".
Proof.
  apply (uid_prefix_stripped sample_parse (VRef 1) sample_heap 2 sample_data
           "http://x" "99"); vm_compute; reflexivity.
Defined.

Lemma primitive_metadata_ignored_witness :
  UserBuilder.coerceMetadata sample_parse (VRef 1) primitive_metadata_heap
  = (Ok tt, primitive_metadata_heap)
  ∧ (UserBuilder.dataConstructor sample_parse (VRef 1) primitive_metadata_heap).2
    = (UserBuilder.canonicalizeUid (VRef 1) primitive_metadata_heap).2.
Proof.
  apply primitive_metadata_ignored; [reflexivity|vm_compute; reflexivity|].
  intros l Hl. vm_compute in Hl. discriminate Hl.
Defined.

Lemma timestamps_get_distinct_dates_witness :
  ∃ l1 l2, l1 ≠ l2
    ∧ both_timestamps_heap !! l1 = None ∧ both_timestamps_heap !! l2 = None
    ∧ rd (UserBuilder.dataConstructor sample_parse (VRef 1) both_timestamps_heap).2
         (VRef 3) "lastSignedInAt" = VRef l1
    ∧ rd (UserBuilder.dataConstructor sample_parse (VRef 1) both_timestamps_heap).2
         (VRef 3) "createdAt" = VRef l2
    ∧ (UserBuilder.dataConstructor sample_parse (VRef 1) both_timestamps_heap).2 !! l1
      = Some (Obj ∅ (DateObj (Some 1588291200000)))
    ∧ (UserBuilder.dataConstructor sample_parse (VRef 1) both_timestamps_heap).2 !! l2
      = Some (Obj ∅ (DateObj (Some 1588291200000))).
Proof.
  apply (timestamps_get_distinct_dates sample_parse (VRef 1) both_timestamps_heap
           "2020-05-01T00:00:00Z" "2020-05-01T00:00:00Z");
    first [discriminate | vm_compute; reflexivity].
Defined.

Lemma record_is_not_an_envelope_witness :
  ∃ h', UserBuilder.dataConstructor sample_parse (VRef 1) sample_heap
        = (Ok (VRef 2), h')
        ∧ UserBuilder.dataConstructor sample_parse (VRef 2) h'
          = (Throw TypeError, h').
Proof.
  apply (record_is_not_an_envelope sample_parse (VRef 1) sample_heap 2 sample_data);
    vm_compute; reflexivity.
Defined.

Lemma envelope_untouched_witness :
  (UserBuilder.dataConstructor sample_parse (VRef 1) sample_heap).2 !! 1%positive
  = sample_heap !! 1%positive.
Proof.
  apply envelope_untouched; [reflexivity|..];
    intros Heq; vm_compute in Heq; discriminate Heq.
Defined.

Lemma user_injective_witness : "p1" = "p1".
Proof.
  apply (user_injective sample_env {[ "GCLOUD_PROJECT" := "p1" ]} "p1" "p1");
    vm_compute; reflexivity.
Defined.

Lemma user_unset_is_undefined_witness :
  user ∅ = user {[ "GCLOUD_PROJECT" := "undefined" ]}
  ∧ UserBuilder.resource (user ∅) = "projects/undefined".
Proof. apply user_unset_is_undefined; vm_compute; reflexivity. Defined.

Lemma envelope_shares_payload_witness :
  ∃ e h1 h2,
    slashed_options_heap !! e = None
    ∧ FirebaseEvent.new (VRef 1) slashed_options_heap = (Ok (VRef e), h1)
    ∧ UserBuilder.dataConstructor sample_parse (VRef e) h1 = (Ok (VRef 2), h2)
    ∧ rd h2 (rd h2 (VRef 1) "data") "uid" = VStr "b"
    ∧ rd h2 (VRef e) "uid" = VStr "x/y".
Proof.
  apply (envelope_shares_payload sample_parse (VRef 1) slashed_options_heap 2
           slashed_payload "a/b"); vm_compute; reflexivity.
Defined.
